(** * Sidebar style rules and the delayed app skeleton

    A shallow embedding of two files of the Streamlit frontend:

    - [components/Sidebar/styled-components.ts]: the style rules of the
      sidebar, arrow functions from the props object (which carries the
      theme) to an Emotion CSS object;
    - the [AppSkeleton] component: a React function component that shows
      nothing for [SHOW_DELAY_MS] milliseconds and a placeholder layout
      afterwards.

    JavaScript numbers are IEEE 754 binary64 values, modelled with the
    Standard Library's [spec_float]; objects are ordered association lists;
    the style rules run in a small state monad over the objects they are
    handed (props, theme, [window]), so that what they read and what they
    leave untouched can be stated. *)

From Stdlib Require Import ZArith NArith List String Ascii Bool Lia.
From Stdlib Require Import SpecFloat DecimalString.
Import ListNotations.

Local Open Scope string_scope.
Set Warnings "-register-all".

(** ** JavaScript values *)

Module Js.

(** A JS [number] is a binary64 float. *)
Definition number : Type := spec_float.

Definition prec : Z := 53.
Definition emax : Z := 1024.

(** An integer literal such as [244]. *)
Definition of_Z (z : Z) : number := binary_normalize prec emax z 0 false.

(** The literal [0.9]: the binary64 value nearest to 9/10. *)
Definition lit_0_9 : number := S754_finite false 8106479329266893 (-53).

(** [a * b] and [a + b] on numbers. *)
Definition mul (a b : number) : number := SFmul prec emax a b.
Definition add (a b : number) : number := SFadd prec emax a b.

(** [Math.min(a, b)]: NaN if either argument is NaN, and -0 is smaller
    than +0. *)
Definition Math_min (a b : number) : number :=
  match a, b with
| S754_nan, _ | _, S754_nan => S754_nan
| S754_zero sa, S754_zero sb => S754_zero (sa || sb)
| _, _ => if SFltb a b then a else b
  end.

(** ToBoolean on a number: [0], [-0] and [NaN] are falsy. *)
Definition truthy (n : number) : bool :=
  match n with
| S754_zero _ | S754_nan => false
| _ => true
  end.

(** The values that occur in an Emotion CSS object. *)
Inductive value : Type :=
| VString (s : string)
| VNumber (n : number)
| VNull
| VArray (l : list value)
| VObject (o : list (string * value)).

(** An object: its own properties in insertion order. *)
Definition object : Type := list (string * value).

(** [o[k]] *)
Fixpoint get (k : string) (o : object) : option value :=
  match o with
| [] => None
| (k', v) :: o' => if String.eqb k k' then Some v else get k o'
  end.

(** [o[k] = v]: an existing property keeps its place, a new one goes
    last. *)
Fixpoint set (k : string) (v : value) (o : object) : object :=
  match o with
| [] => [(k, v)]
| (k', v') :: o' =>
      if String.eqb k k' then (k', v) :: o' else (k', v') :: set k v o'
  end.

(** The members of an object literal: [k: v] and [...src]. *)
Inductive member : Type :=
| Field (k : string) (v : value)
| Spread (src : object).

Definition add_member (o : object) (m : member) : object :=
  match m with
| Field k v => set k v o
| Spread src => fold_left (fun acc kv => set (fst kv) (snd kv) acc) src o
  end.

(** An object literal [{ m1, m2, ... }], evaluated left to right. *)
Definition literal (ms : list member) : object := fold_left add_member ms [].

End Js.

Import Js.

Declare Scope js_scope.
Delimit Scope js_scope with js.
Notation "k ::: v" := (Field k v) (at level 68, no associativity) : js_scope.
Notation "'{{' m1 ; .. ; mn '}}'" :=
  (literal (cons m1%js .. (cons mn%js nil) ..)) (at level 0) : js_scope.
Notation "'{{' '}}'" := (literal nil) (at level 0) : js_scope.
Local Open Scope js_scope.

Coercion VString : string >-> value.

(** The integer literal [n] as a CSS value. *)
Definition num (n : Z) : value := VNumber (of_Z n).

(** ** The theme

    Modelled from the spec: the theme type is declared outside these two
    files. The spec has it as an externally owned configuration of colors,
    spacing and breakpoints; the records below list the tokens the style
    rules read, with the JS type each has. *)

Module Colors.
Record t : Type := {
  bgColor : string;
  bodyText : string;
  fadedText10 : string;
  fadedText20 : string;
  fadedText60 : string;
  darkenedBgMix15 : string;
  darkenedBgMix25 : string;
  gray60 : string;
  transparent : string;
  primary : string
}.
End Colors.

Module Spacing.
Record t : Type := {
  none : string;
  threeXS : string;
  twoXS : string;
  xs : string;
  sm : string;
  lg : string;
  twoXL : string
}.
End Spacing.

Module ZIndices.
Record t : Type := { header : number; sidebarMobile : number }.
End ZIndices.

Module Breakpoints.
Record t : Type := { md : string }.
End Breakpoints.

Module LineHeights.
Record t : Type := { menuItem : number }.
End LineHeights.

Module Sizes.
Record t : Type := { sidebarTopSpace : string }.
End Sizes.

Module FontSizes.
Record t : Type := { sm : string }.
End FontSizes.

Record Theme : Type := {
  colors : Colors.t;
  spacing : Spacing.t;
  zIndices : ZIndices.t;
  breakpoints : Breakpoints.t;
  lineHeights : LineHeights.t;
  sizes : Sizes.t;
  fontSizes : FontSizes.t
}.

(** The part of the global [window] object the rules read. *)
Record Window : Type := { innerWidth : number }.

(** ** The objects a style rule is handed, and the monad it runs in *)

(** Emotion calls a style rule with the props object of the element, into
    which it has put the current theme; [window] is a global. *)
Record Store (P : Type) : Type := {
  st_window : Window;
  st_theme : Theme;
  st_props : P
}.
Arguments st_window {P} _.
Arguments st_theme {P} _.
Arguments st_props {P} _.
Arguments Build_Store {P} _ _ _.

Definition M (P A : Type) : Type := Store P -> A * Store P.

Definition ret {P A} (a : A) : M P A := fun s => (a, s).

Definition bind {P A B} (m : M P A) (k : A -> M P B) : M P B :=
  fun s => let (a, s') := m s in k a s'.

Notation "x <- m ;; k" := (bind m (fun x => k))
  (at level 61, m at next level, right associativity).

(** Property reads: [props.f], [props.theme], [window.innerWidth]. *)
Definition prop {P A} (f : P -> A) : M P A := fun s => (f (st_props s), s).
Definition theme_ {P} : M P Theme := fun s => (st_theme s, s).
Definition window_innerWidth {P} : M P number :=
  fun s => (innerWidth (st_window s), s).

(** The style a rule yields, and the objects as it leaves them. *)
Definition style_of {P} (rule : M P object) (s : Store P) : object := fst (rule s).
Definition store_after {P} (rule : M P object) (s : Store P) : Store P := snd (rule s).

(** ** Sidebar/styled-components.ts *)

(** The props interfaces. *)

Module StyledSidebarProps.
Record t : Type := {
  isCollapsed : bool;
  adjustTop : bool;
  sidebarWidth : string
}.
End StyledSidebarProps.

Module StyledSidebarNavItemsProps.
Record t : Type := {
  isExpanded : bool;
  isOverflowing : bool;
  hasSidebarElements : bool
}.
End StyledSidebarNavItemsProps.

Module StyledSidebarNavSeparatorContainerProps.
Record t : Type := {
  isExpanded : bool;
  isOverflowing : bool
}.
End StyledSidebarNavSeparatorContainerProps.

Module StyledSidebarNavLinkProps.
Record t : Type := { isActive : bool }.
End StyledSidebarNavLinkProps.

Module StyledSidebarUserContentProps.
Record t : Type := { hasPageNavAbove : bool }.
End StyledSidebarUserContentProps.

Module StyledSidebarContentProps.
Record t : Type := { hideScrollbar : bool }.
End StyledSidebarContentProps.

Module StyledSidebarCollapsedControlProps.
Record t : Type := {
  chevronDownshift : number;
  isCollapsed : bool
}.
End StyledSidebarCollapsedControlProps.

Module StyledLogoProps.
Record t : Type := { size : string }.
End StyledLogoProps.

Module StyledCollapseSidebarButtonProps.
Record t : Type := { showSidebarCollapse : bool }.
End StyledCollapseSidebarButtonProps.

(** A rule declared without a props interface sees no prop of its own. *)
Definition NoProps : Type := unit.

(** The literal [0.5]. *)
Definition lit_0_5 : number := S754_finite false 4503599627370496 (-53).

(** The string [" "] with its quotation marks, as in [content: '" "']. *)
Definition quoted_space : string :=
  String (ascii_of_nat 34) (String (ascii_of_nat 32) (String (ascii_of_nat 34) EmptyString)).

(** The rules that call no helper. The module also declares
    [bounceAnimation], a keyframes object no rule uses. *)

Definition StyledSidebar : M StyledSidebarProps.t object :=
  theme <- theme_ ;;
  isCollapsed <- prop StyledSidebarProps.isCollapsed ;;
  adjustTop <- prop StyledSidebarProps.adjustTop ;;
  sidebarWidth <- prop StyledSidebarProps.sidebarWidth ;;
  minWidth <- (if isCollapsed : bool then ret (of_Z 0)
               else w <- window_innerWidth ;; ret (Math_min (of_Z 244) w)) ;;
  maxWidth <- (if isCollapsed : bool then ret (of_Z 0)
               else w <- window_innerWidth ;;
                    ret (Math_min (of_Z 550) (mul w lit_0_9))) ;;
  ret {{ "position" ::: "relative" ;
         "top" ::: (if adjustTop : bool then "2px" else "0px") ;
         "backgroundColor" ::: Colors.bgColor (colors theme) ;
         "zIndex" ::: VNumber (add (ZIndices.header (zIndices theme)) (of_Z 1)) ;
         "minWidth" ::: VNumber minWidth ;
         "maxWidth" ::: VNumber maxWidth ;
         "transform" :::
           (if isCollapsed : bool
            then "translateX(-" ++ sidebarWidth ++ "px)" else "none") ;
         "transition" ::: "transform 300ms, min-width 300ms, max-width 300ms" ;
         "&:focus" ::: VObject {{ "outline" ::: "none" }} ;
         ("@media (max-width: " ++ Breakpoints.md (breakpoints theme) ++ ")") :::
           VObject {{ "boxShadow" :::
                        "-2rem 0 2rem 2rem " ++
                        (if isCollapsed : bool then "transparent" else "#00000029") }} ;
         "@media print" :::
           VObject {{ "backgroundColor" ::: "transparent" ;
                      "margin" ::: "auto" ;
                      "boxShadow" ::: "none" ;
                      "maxWidth" ::: "none" ;
                      "minWidth" ::: "100%" ;
                      "width" ::: "100% !important" ;
                      "paddingTop" ::: "1rem" }} }}.

Definition StyledSidebarNavContainer : M NoProps object :=
  ret {{ "position" ::: "relative" }}.

Definition StyledSidebarNavItems : M StyledSidebarNavItemsProps.t object :=
  isExpanded <- prop StyledSidebarNavItemsProps.isExpanded ;;
  isOverflowing <- prop StyledSidebarNavItemsProps.isOverflowing ;;
  hasSidebarElements <- prop StyledSidebarNavItemsProps.hasSidebarElements ;;
  theme <- theme_ ;;
  let isExpandedMaxHeight := if isExpanded : bool then "75vh" else "33vh" in
  let maxHeight := if hasSidebarElements : bool then isExpandedMaxHeight else "100vh" in
  ret {{ "maxHeight" ::: maxHeight ;
         "listStyle" ::: "none" ;
         "overflow" ::: VArray [VString "auto"; VString "overlay"] ;
         "margin" ::: num 0 ;
         "paddingTop" ::: Spacing.lg (spacing theme) ;
         "paddingBottom" ::: Spacing.lg (spacing theme) ;
         "@media print" :::
           VObject {{ "paddingTop" ::: Spacing.sm (spacing theme) }} ;
         "&::before" :::
           (if isOverflowing : bool
            then VObject
                   {{ "content" ::: quoted_space ;
                      "backgroundImage" :::
                        "linear-gradient(0deg, transparent, " ++
                        Colors.bgColor (colors theme) ++ ")" ;
                      "width" ::: "100%" ;
                      "height" ::: "2rem" ;
                      "position" ::: "absolute" ;
                      "top" ::: num 0 ;
                      "left" ::: num 0 ;
                      "right" ::: num 0 ;
                      "pointerEvents" ::: "none" }}
            else VNull) ;
         "&::after" :::
           (if isOverflowing : bool
            then VObject
                   {{ "content" ::: quoted_space ;
                      "backgroundImage" :::
                        "linear-gradient(0deg, " ++
                        Colors.bgColor (colors theme) ++ ", transparent)" ;
                      "height" ::: "2rem" ;
                      "position" ::: "absolute" ;
                      "bottom" ::: num 0 ;
                      "left" ::: num 0 ;
                      "right" ::: num 0 ;
                      "pointerEvents" ::: "none" }}
            else VNull) }}.

Definition StyledSidebarNavSeparatorContainer
  : M StyledSidebarNavSeparatorContainerProps.t object :=
  isExpanded <- prop StyledSidebarNavSeparatorContainerProps.isExpanded ;;
  isOverflowing <- prop StyledSidebarNavSeparatorContainerProps.isOverflowing ;;
  theme <- theme_ ;;
  ret {{ "cursor" ::: (if isExpanded || isOverflowing then "pointer" else "default") ;
         "position" ::: "absolute" ;
         "height" ::: Spacing.lg (spacing theme) ;
         "left" ::: num 0 ;
         "right" ::: num 0 ;
         "bottom" ::: num 0 ;
         "display" ::: "flex" ;
         "alignItems" ::: "center" ;
         "justifyContent" ::: "center" ;
         "color" ::: Colors.fadedText60 (colors theme) ;
         "borderBottom" ::: "1px solid " ++ Colors.fadedText10 (colors theme) ;
         "transition" ::: "color 500ms" }}.

Definition StyledSidebarNavLinkContainer : M NoProps object :=
  ret {{ "display" ::: "flex" ;
         "flexDirection" ::: "column" }}.

Definition StyledSidebarNavLink : M StyledSidebarNavLinkProps.t object :=
  isActive <- prop StyledSidebarNavLinkProps.isActive ;;
  theme <- theme_ ;;
  let defaultPageLinkStyles :=
    {{ "textDecoration" ::: "none" ;
       "fontWeight" ::: (if isActive : bool then num 600 else num 400) }} in
  ret {{ Spread defaultPageLinkStyles ;
         "display" ::: "flex" ;
         "flexDirection" ::: "row" ;
         "alignItems" ::: "center" ;
         "gap" ::: Spacing.sm (spacing theme) ;
         "borderRadius" ::: Spacing.twoXS (spacing theme) ;
         "paddingLeft" ::: Spacing.sm (spacing theme) ;
         "paddingRight" ::: Spacing.sm (spacing theme) ;
         "marginLeft" ::: Spacing.lg (spacing theme) ;
         "marginRight" ::: Spacing.lg (spacing theme) ;
         "marginTop" ::: Spacing.threeXS (spacing theme) ;
         "marginBottom" ::: Spacing.threeXS (spacing theme) ;
         "lineHeight" ::: VNumber (LineHeights.menuItem (lineHeights theme)) ;
         "backgroundColor" :::
           (if isActive : bool
            then Colors.darkenedBgMix15 (colors theme) else "transparent") ;
         "&:hover" :::
           VObject {{ "backgroundColor" :::
                        (if isActive : bool
                         then Colors.darkenedBgMix25 (colors theme)
                         else Colors.darkenedBgMix15 (colors theme)) }} ;
         "&:active,&:visited,&:hover" :::
           VObject {{ Spread defaultPageLinkStyles }} ;
         "&:focus" ::: VObject {{ "outline" ::: "none" }} ;
         "&:focus-visible" :::
           VObject {{ "backgroundColor" ::: Colors.darkenedBgMix15 (colors theme) }} ;
         "@media print" :::
           VObject {{ "paddingLeft" ::: Spacing.none (spacing theme) }} }}.

Definition StyledSidebarLinkText : M StyledSidebarNavLinkProps.t object :=
  isActive <- prop StyledSidebarNavLinkProps.isActive ;;
  theme <- theme_ ;;
  ret {{ "color" :::
           (if isActive : bool
            then Colors.bodyText (colors theme)
            else Colors.fadedText60 (colors theme)) ;
         "overflow" ::: "hidden" ;
         "whiteSpace" ::: "nowrap" ;
         "textOverflow" ::: "ellipsis" ;
         "display" ::: "table-cell" }}.

Definition StyledSidebarContent : M StyledSidebarContentProps.t object :=
  hideScrollbar <- prop StyledSidebarContentProps.hideScrollbar ;;
  ret {{ "position" ::: "relative" ;
         "height" ::: "100%" ;
         "width" ::: "100%" ;
         "overflow" :::
           (if hideScrollbar : bool
            then VString "hidden"
            else VArray [VString "auto"; VString "overlay"]) }}.

Definition StyledResizeHandle : M NoProps object :=
  theme <- theme_ ;;
  ret {{ "position" ::: "absolute" ;
         "width" ::: "8px" ;
         "height" ::: "100%" ;
         "cursor" ::: "col-resize" ;
         "zIndex" ::: VNumber (ZIndices.sidebarMobile (zIndices theme)) ;
         "&:hover" :::
           VObject {{ "backgroundImage" :::
                        "linear-gradient(to right, transparent 20%, " ++
                        Colors.fadedText20 (colors theme) ++
                        " 28%, transparent 36%)" }} }}.

Definition StyledSidebarOpenContainer : M NoProps object :=
  theme <- theme_ ;;
  ret {{ "display" ::: "flex" ;
         "justifyContent" ::: "space-between" ;
         "alignItems" ::: "start" ;
         "padding" :::
           Spacing.twoXL (spacing theme) ++ " 0 0 " ++ Spacing.twoXL (spacing theme) }}.

Definition StyledSidebarOpenButtonContainer : M NoProps object :=
  theme <- theme_ ;;
  ret {{ "zIndex" ::: VNumber (ZIndices.header (zIndices theme)) ;
         "marginLeft" ::: Spacing.sm (spacing theme) ;
         "height" ::: "5rem" }}.

Definition StyledSidebarHeaderContainer : M NoProps object :=
  theme <- theme_ ;;
  ret {{ "display" ::: "flex" ;
         "justifyContent" ::: "space-between" ;
         "alignItems" ::: "start" ;
         "padding" ::: Spacing.twoXL (spacing theme) }}.

Definition StyledLogo : M StyledLogoProps.t object :=
  theme <- theme_ ;;
  size <- prop StyledLogoProps.size ;;
  let logoHeight := if String.eqb size "fixed" then "1.5rem" else "auto" in
  ret {{ "height" ::: logoHeight ;
         "margin" ::: "0.5rem 0 0.5rem 0" ;
         "zIndex" ::: VNumber (ZIndices.header (zIndices theme)) }}.

Definition StyledNoLogoSpacer : M NoProps object :=
  ret {{ "height" ::: "2rem" }}.

Definition StyledCollapseSidebarButton
  : M StyledCollapseSidebarButtonProps.t object :=
  showSidebarCollapse <- prop StyledCollapseSidebarButtonProps.showSidebarCollapse ;;
  ret {{ "display" ::: (if showSidebarCollapse : bool then "auto" else "none") ;
         "transition" ::: "left 300ms" ;
         "transitionDelay" ::: "left 300ms" }}.

Definition StyledViewButton : M NoProps object :=
  theme <- theme_ ;;
  ret {{ "fontSize" ::: FontSizes.sm (fontSizes theme) ;
         "lineHeight" ::: "1.4rem" ;
         "color" ::: Colors.gray60 (colors theme) ;
         "backgroundColor" ::: Colors.transparent (colors theme) ;
         "border" ::: "none" ;
         "boxShadow" ::: "none" ;
         "position" ::: "relative" ;
         "bottom" ::: "12px" ;
         "left" ::: "12px" ;
         "&:hover, &:active, &:focus" :::
           VObject {{ "border" ::: "none" ;
                      "outline" ::: "none" ;
                      "boxShadow" ::: "none" }} ;
         "&:hover" ::: VObject {{ "color" ::: Colors.primary (colors theme) }} }}.

(** ** The app skeleton: data *)

(** Modelled from the spec: [SkeletonProto] is generated from a protobuf
    declaration outside these files, a typed structure for the element
    height. The component reads its [height] only; besides a number, the
    field of a generated message may hold [null] or [undefined], and all
    three are allowed here. *)
Inductive optional_number : Type :=
| Num (n : number)
| Null
| Undefined.

Record SkeletonProto : Type := { height : optional_number }.

(** What a render returns: a fragment, or an element with its type, its
    string props and its children. *)
Inductive ReactElement : Type :=
| Fragment (children : list ReactElement)
| Element (type : string) (props : list (string * string))
          (children : list ReactElement).

(** How many elements of type [ty] a tree holds. *)
Fixpoint count_type (ty : string) (e : ReactElement) : nat :=
  let fix go (cs : list ReactElement) : nat :=
    match cs with
    | [] => 0%nat
    | c :: cs' => (count_type ty c + go cs')%nat
    end in
  match e with
  | Fragment cs => go cs
  | Element t _ cs => ((if String.eqb t ty then 1 else 0) + go cs)%nat
  end.

(** The props of the first element of type [ty], in document order. *)
Fixpoint find_type (ty : string) (e : ReactElement) : option (list (string * string)) :=
  let fix go (cs : list ReactElement) : option (list (string * string)) :=
    match cs with
    | [] => None
    | c :: cs' =>
        match find_type ty c with
        | Some ps => Some ps
        | None => go cs'
        end
    end in
  match e with
  | Fragment cs => go cs
  | Element t ps cs => if String.eqb t ty then Some ps else go cs
  end.

Fixpoint attr (k : string) (ps : list (string * string)) : option string :=
  match ps with
  | [] => None
  | (k', v) :: ps' => if String.eqb k k' then Some v else attr k ps'
  end.

(** ** The app skeleton: timers and the component instance *)

Local Open Scope N_scope.

Definition SHOW_DELAY_MS : N := 500.

(** The one closure handed to [setTimeout]: [() => { setVisible(v) }]. *)
Inductive callback : Type :=
| CallSetVisible (v : bool).

(** A pending timeout. Times are in milliseconds. *)
Record timer : Type := {
  timer_id : N;
  deadline : N;
  handler : callback
}.

(** The mounted component: its current props, the state of
    [useState(false)], and the [timer] the effect's cleanup closes over. *)
Record Instance : Type := {
  element : SkeletonProto;
  visible : bool;
  cleanup_timer : N
}.

(** Calls into the runtime, recorded as they happen. *)
Inductive action : Type :=
| ASetTimeout (id delay : N)
| AClearTimeout (id : N)
| ASetVisible (v : bool)
| AUnmounted.

Record World : Type := {
  now : N;
  next_timer : N;
  timers : list timer;
  instance : option Instance;
  calls : list action            (* newest first *)
}.

(** A page with the clock at [t0], no timeout pending, nothing mounted. *)
Definition idle (t0 id0 : N) : World :=
  {| now := t0; next_timer := id0; timers := []; instance := None; calls := [] |}.

Definition setTimeout (h : callback) (delay : N) (w : World) : N * World :=
  let id := next_timer w in
  (id,
   {| now := now w;
      next_timer := id + 1;
      timers := timers w ++ [{| timer_id := id; deadline := now w + delay; handler := h |}];
      instance := instance w;
      calls := ASetTimeout id delay :: calls w |}).

Definition clearTimeout (id : N) (w : World) : World :=
  {| now := now w;
     next_timer := next_timer w;
     timers := filter (fun tm => negb (timer_id tm =? id)) (timers w);
     instance := instance w;
     calls := AClearTimeout id :: calls w |}.

(** The state setter of [useState]: it updates the mounted instance (which
    React then renders again); on an unmounted one it changes nothing. *)
Definition setVisible (v : bool) (w : World) : World :=
  {| now := now w;
     next_timer := next_timer w;
     timers := timers w;
     instance :=
       match instance w with
       | Some i => Some {| element := element i; visible := v;
                           cleanup_timer := cleanup_timer i |}
       | None => None
       end;
     calls := ASetVisible v :: calls w |}.

(** The body of the effect: it starts the timeout and returns the timer for
    its cleanup. *)
Definition effect (w : World) : N * World :=
  setTimeout (CallSetVisible true) SHOW_DELAY_MS w.

Definition cleanup (timer : N) (w : World) : World := clearTimeout timer w.

(** First render of the component with props [e]: [useState(false)], then
    the effect (its dependency list is empty, so it runs this once). *)
Definition mount (e : SkeletonProto) (w : World) : World :=
  let (timer, w') := effect w in
  {| now := now w';
     next_timer := next_timer w';
     timers := timers w';
     instance := Some {| element := e; visible := false; cleanup_timer := timer |};
     calls := calls w' |}.

(** Unmounting runs the cleanup and drops the instance. *)
Definition unmount (w : World) : World :=
  match instance w with
  | None => w
  | Some i =>
      let w' := cleanup (cleanup_timer i) w in
      {| now := now w';
         next_timer := next_timer w';
         timers := timers w';
         instance := None;
         calls := AUnmounted :: calls w' |}
  end.

(** The parent renders the component again with props [e]; the effect is
    not run again. *)
Definition rerender (e : SkeletonProto) (w : World) : World :=
  {| now := now w;
     next_timer := next_timer w;
     timers := timers w;
     instance :=
       match instance w with
       | Some i => Some {| element := e; visible := visible i;
                           cleanup_timer := cleanup_timer i |}
       | None => None
       end;
     calls := calls w |}.

Definition run_handler (h : callback) (w : World) : World :=
  match h with
  | CallSetVisible v => setVisible v w
  end.

Definition due (t : N) (tm : timer) : bool := deadline tm <=? t.

(** The clock moves on by [dt]; every timeout whose deadline has been
    reached leaves the queue and its handler runs. The event loop is taken
    to be idle, so a handler is not late. *)
Definition advance (dt : N) (w : World) : World :=
  let t := now w + dt in
  let (ready, waiting) := partition (due t) (timers w) in
  fold_left (fun w' tm => run_handler (handler tm) w') ready
    {| now := t;
       next_timer := next_timer w;
       timers := waiting;
       instance := instance w;
       calls := calls w |}.

Inductive event : Type :=
| Advance (dt : N)
| Rerender (e : SkeletonProto)
| Unmount.

Definition step (w : World) (ev : event) : World :=
  match ev with
  | Advance dt => advance dt w
  | Rerender e => rerender e w
  | Unmount => unmount w
  end.

Definition run (evs : list event) (w : World) : World := fold_left step evs w.

(** An event list that does not unmount. *)
Definition keeps_mounted (ev : event) : bool :=
  match ev with
  | Unmount => false
  | _ => true
  end.

(** The time an event list takes. *)
Definition elapsed (evs : list event) : N :=
  fold_left (fun t ev => match ev with Advance dt => t + dt | _ => t end) evs 0.

(** The props of the latest render. *)
Definition current_props (e : SkeletonProto) (evs : list event) : SkeletonProto :=
  fold_left (fun e0 ev => match ev with Rerender e' => e' | _ => e0 end) evs e.

(** The visibility flag, while the component is mounted. *)
Definition flag (w : World) : option bool := option_map visible (instance w).

(** The flag in every world an event list goes through. *)
Fixpoint flags (evs : list event) (w : World) : list (option bool) :=
  flag w ::
  match evs with
  | [] => []
  | ev :: evs' => flags evs' (step w ev)
  end.

Local Close Scope N_scope.

(** ** What the files take from elsewhere *)

(** The integer a number stands for, if it is one. *)
Definition integral (n : number) : option Z :=
  match n with
  | S754_zero _ => Some 0%Z
  | S754_finite s m e =>
      let magnitude :=
        if (0 <=? e)%Z then Some (Z.pos m * 2 ^ e)%Z
        else if (Z.pos m mod 2 ^ (- e) =? 0)%Z then Some (Z.pos m / 2 ^ (- e))%Z
        else None in
      option_map (fun z => if s then (- z)%Z else z) magnitude
  | _ => None
  end.

(** A number printer for the examples below: the decimal digits of an
    integer, as JS prints integers of this size; the examples use no other
    number. *)
Definition print_integer (n : number) : string :=
  match integral n with
  | Some z => NilZero.string_of_int (Z.to_int z)
  | None => "NaN"
  end.

(** ** Inputs for the examples

    Token values in the style of the light theme, a page 1000 pixels wide,
    and stand-ins for the two helpers; the theorems hold whatever these
    are. *)

Definition light_theme : Theme :=
  {| colors :=
       {| Colors.bgColor := "#ffffff";
          Colors.bodyText := "#31333F";
          Colors.fadedText10 := "rgba(49, 51, 63, 0.1)";
          Colors.fadedText20 := "rgba(49, 51, 63, 0.2)";
          Colors.fadedText60 := "rgba(49, 51, 63, 0.6)";
          Colors.darkenedBgMix15 := "rgba(151, 166, 195, 0.15)";
          Colors.darkenedBgMix25 := "rgba(151, 166, 195, 0.25)";
          Colors.gray60 := "#a3a8b8";
          Colors.transparent := "transparent";
          Colors.primary := "#ff4b4b" |};
     spacing :=
       {| Spacing.none := "0";
          Spacing.threeXS := "0.125rem";
          Spacing.twoXS := "0.25rem";
          Spacing.xs := "0.375rem";
          Spacing.sm := "0.5rem";
          Spacing.lg := "1rem";
          Spacing.twoXL := "1.5rem" |};
     zIndices := {| ZIndices.header := of_Z 999990; ZIndices.sidebarMobile := of_Z 999992 |};
     breakpoints := {| Breakpoints.md := "768px" |};
     lineHeights := {| LineHeights.menuItem := of_Z 2 |};
     sizes := {| Sizes.sidebarTopSpace := "6rem" |};
     fontSizes := {| FontSizes.sm := "14px" |} |}.

Definition window_of_width (w : Z) : Window := {| innerWidth := of_Z w |}.

Definition expanded_sidebar : StyledSidebarProps.t :=
  {| StyledSidebarProps.isCollapsed := false;
     StyledSidebarProps.adjustTop := false;
     StyledSidebarProps.sidebarWidth := "300" |}.

Definition collapsed_sidebar : StyledSidebarProps.t :=
  {| StyledSidebarProps.isCollapsed := true;
     StyledSidebarProps.adjustTop := true;
     StyledSidebarProps.sidebarWidth := "300" |}.

(** The same expanded sidebar in a narrow and in a wide window. *)
Definition narrow_page : Store StyledSidebarProps.t :=
  Build_Store (window_of_width 200) light_theme expanded_sidebar.

Definition wide_page : Store StyledSidebarProps.t :=
  Build_Store (window_of_width 1000) light_theme expanded_sidebar.

Definition no_transparentize (color : string) (amount : number) : string := color.

Definition no_wrapped_headers (theme : Theme) : object := [].

Definition collapsed_narrow_page : Store StyledSidebarProps.t :=
  Build_Store (window_of_width 200) light_theme collapsed_sidebar.

Definition collapsed_wide_page : Store StyledSidebarProps.t :=
  Build_Store (window_of_width 1000) light_theme collapsed_sidebar.

Definition nav_items_page (isExpanded isOverflowing hasSidebarElements : bool)
  : Store StyledSidebarNavItemsProps.t :=
  Build_Store (window_of_width 1000) light_theme
    {| StyledSidebarNavItemsProps.isExpanded := isExpanded;
       StyledSidebarNavItemsProps.isOverflowing := isOverflowing;
       StyledSidebarNavItemsProps.hasSidebarElements := hasSidebarElements |}.

Definition separator_page (isExpanded isOverflowing : bool)
  : Store StyledSidebarNavSeparatorContainerProps.t :=
  Build_Store (window_of_width 1000) light_theme
    {| StyledSidebarNavSeparatorContainerProps.isExpanded := isExpanded;
       StyledSidebarNavSeparatorContainerProps.isOverflowing := isOverflowing |}.

Definition logo_page (size : string) : Store StyledLogoProps.t :=
  Build_Store (window_of_width 1000) light_theme {| StyledLogoProps.size := size |}.

(** A skeleton 100 points high. *)
Definition skeleton_100 : SkeletonProto := {| height := Num (of_Z 100) |}.

(** A skeleton whose height is not set. *)
Definition skeleton_unset : SkeletonProto := {| height := Null |}.

(** 499 ms in two steps with a re-render in between, and 500 ms. *)
Definition short_wait : list event := [Advance 200; Rerender skeleton_100; Advance 299].
Definition full_wait : list event := [Advance 200; Rerender skeleton_100; Advance 300].

(** An unmounted component whose timeout was left pending, as it would be
    without the cleanup. *)
Definition timer_left_behind : World :=
  {| now := 100; next_timer := 1;
     timers := [{| timer_id := 0; deadline := 500; handler := CallSetVisible true |}];
     instance := None;
     calls := [AUnmounted; ASetTimeout 0 500] |}.

(** A helper result that sets a padding of its own, a scrollbar-free
    content area in two windows, a control without downshift, and a run
    that unmounts after the reveal. *)
Definition headers_with_padding (theme : Theme) : object :=
  [ ("paddingTop", VString (Spacing.sm (spacing theme)));
    ("& h1", VObject [("scrollMarginTop", VString (Spacing.none (spacing theme)))]) ].

Definition user_content_page : Store StyledSidebarUserContentProps.t :=
  Build_Store (window_of_width 1000) light_theme
    {| StyledSidebarUserContentProps.hasPageNavAbove := true |}.

Definition content_page (w : Z) : Store StyledSidebarContentProps.t :=
  Build_Store (window_of_width w) light_theme
    {| StyledSidebarContentProps.hideScrollbar := true |}.

Definition control_page (chevronDownshift : Z)
  : Store StyledSidebarCollapsedControlProps.t :=
  Build_Store (window_of_width 1000) light_theme
    {| StyledSidebarCollapsedControlProps.chevronDownshift := of_Z chevronDownshift;
       StyledSidebarCollapsedControlProps.isCollapsed := true |}.

Definition late_unmount : list event := [Advance 600; Unmount; Advance 1000].

Section Runtime.

(** [Number::toString] of the JS runtime, as used by template literals and
    by [+] with a string operand. *)
Variable Number_toString : number -> string.

(** [transparentize(color, amount)] of the color2k package. *)
Variable transparentize : string -> number -> string.

(** Modelled from the spec: [getWrappedHeadersStyle] of
    [@streamlit/lib/src/theme/utils] is not among these files; by the
    spec a style is derived from the theme by a pure function and the
    theme is only read, so the helper is a function from the theme to the
    style object it returns. *)
Variable getWrappedHeadersStyle : Theme -> object.

(** *** The remaining style rules *)

Definition StyledSidebarUserContent : M StyledSidebarUserContentProps.t object :=
  hasPageNavAbove <- prop StyledSidebarUserContentProps.hasPageNavAbove ;;
  theme <- theme_ ;;
  ret {{ "paddingTop" :::
           (if hasPageNavAbove : bool then Spacing.lg (spacing theme) else "0") ;
         "paddingBottom" ::: Sizes.sidebarTopSpace (sizes theme) ;
         "paddingLeft" ::: Spacing.twoXL (spacing theme) ;
         "paddingRight" ::: Spacing.twoXL (spacing theme) ;
         "@media print" ::: VObject {{ "paddingTop" ::: "1rem" }} ;
         Spread (getWrappedHeadersStyle theme) }}.

Definition StyledSidebarCloseButton : M NoProps object :=
  theme <- theme_ ;;
  ret {{ "position" ::: "absolute" ;
         "top" ::: Spacing.xs (spacing theme) ;
         "right" ::: Spacing.twoXS (spacing theme) ;
         "zIndex" ::: num 1 ;
         "&:hover button" :::
           VObject {{ "backgroundColor" :::
                        transparentize (Colors.fadedText60 (colors theme)) lit_0_5 }} ;
         "@media print" ::: VObject {{ "display" ::: "none" }} }}.

Definition StyledSidebarCollapsedControl
  : M StyledSidebarCollapsedControlProps.t object :=
  chevronDownshift <- prop StyledSidebarCollapsedControlProps.chevronDownshift ;;
  isCollapsed <- prop StyledSidebarCollapsedControlProps.isCollapsed ;;
  theme <- theme_ ;;
  ret {{ "position" ::: "fixed" ;
         "top" :::
           (if truthy chevronDownshift
            then Number_toString chevronDownshift ++ "px"
            else Spacing.sm (spacing theme)) ;
         "left" :::
           (if isCollapsed : bool
            then Spacing.twoXS (spacing theme)
            else "-" ++ Spacing.twoXS (spacing theme)) ;
         "zIndex" ::: VNumber (ZIndices.header (zIndices theme)) ;
         "transition" ::: "left 300ms" ;
         "transitionDelay" ::: "left 300ms" ;
         "color" ::: Colors.bodyText (colors theme) ;
         ("@media (max-width: " ++ Breakpoints.md (breakpoints theme) ++ ")") :::
           VObject {{ "color" ::: Colors.bodyText (colors theme) }} ;
         "@media print" ::: VObject {{ "display" ::: "none" }} }}.

(** *** The module as a whole: every exported style rule *)

Inductive rule_name : Type :=
| N_StyledSidebar
| N_StyledSidebarNavContainer
| N_StyledSidebarNavItems
| N_StyledSidebarNavSeparatorContainer
| N_StyledSidebarNavLinkContainer
| N_StyledSidebarNavLink
| N_StyledSidebarLinkText
| N_StyledSidebarUserContent
| N_StyledSidebarContent
| N_StyledSidebarCloseButton
| N_StyledSidebarCollapsedControl
| N_StyledResizeHandle
| N_StyledSidebarOpenContainer
| N_StyledSidebarOpenButtonContainer
| N_StyledSidebarHeaderContainer
| N_StyledLogo
| N_StyledNoLogoSpacer
| N_StyledCollapseSidebarButton
| N_StyledViewButton.

Definition props_of (r : rule_name) : Type :=
  match r with
  | N_StyledSidebar => StyledSidebarProps.t
  | N_StyledSidebarNavItems => StyledSidebarNavItemsProps.t
  | N_StyledSidebarNavSeparatorContainer => StyledSidebarNavSeparatorContainerProps.t
  | N_StyledSidebarNavLink | N_StyledSidebarLinkText => StyledSidebarNavLinkProps.t
  | N_StyledSidebarUserContent => StyledSidebarUserContentProps.t
  | N_StyledSidebarContent => StyledSidebarContentProps.t
  | N_StyledSidebarCollapsedControl => StyledSidebarCollapsedControlProps.t
  | N_StyledLogo => StyledLogoProps.t
  | N_StyledCollapseSidebarButton => StyledCollapseSidebarButtonProps.t
  | _ => NoProps
  end.

Definition style_rule (r : rule_name) : M (props_of r) object :=
  match r return M (props_of r) object with
  | N_StyledSidebar => StyledSidebar
  | N_StyledSidebarNavContainer => StyledSidebarNavContainer
  | N_StyledSidebarNavItems => StyledSidebarNavItems
  | N_StyledSidebarNavSeparatorContainer => StyledSidebarNavSeparatorContainer
  | N_StyledSidebarNavLinkContainer => StyledSidebarNavLinkContainer
  | N_StyledSidebarNavLink => StyledSidebarNavLink
  | N_StyledSidebarLinkText => StyledSidebarLinkText
  | N_StyledSidebarUserContent => StyledSidebarUserContent
  | N_StyledSidebarContent => StyledSidebarContent
  | N_StyledSidebarCloseButton => StyledSidebarCloseButton
  | N_StyledSidebarCollapsedControl => StyledSidebarCollapsedControl
  | N_StyledResizeHandle => StyledResizeHandle
  | N_StyledSidebarOpenContainer => StyledSidebarOpenContainer
  | N_StyledSidebarOpenButtonContainer => StyledSidebarOpenButtonContainer
  | N_StyledSidebarHeaderContainer => StyledSidebarHeaderContainer
  | N_StyledLogo => StyledLogo
  | N_StyledNoLogoSpacer => StyledNoLogoSpacer
  | N_StyledCollapseSidebarButton => StyledCollapseSidebarButton
  | N_StyledViewButton => StyledViewButton
  end.

(** Whether a rule, at these props, consults [window]: [StyledSidebar] does
    for an expanded sidebar. *)
Definition reads_window (r : rule_name) : props_of r -> bool :=
  match r return props_of r -> bool with
  | N_StyledSidebar => fun p => negb (StyledSidebarProps.isCollapsed p)
  | _ => fun _ => false
  end.

(** *** The component *)

(** The string operand [x] becomes in [x + "pt"]. *)
Definition to_text (x : optional_number) : string :=
  match x with
  | Num n => Number_toString n
  | Null => "null"
  | Undefined => "undefined"
  end.

(** What [RawAppSkeleton] returns for props [element] when [useState] hands
    it [visible]. *)
Definition RawAppSkeleton (element : SkeletonProto) (visible : bool) : ReactElement :=
  if negb visible then Fragment []
  else
    Element "StyledSkeleton" [("data-testid", "stAppSkeleton")]
      [ Element "TitleSkeleton" [] [] ;
        Element "ParagraphSkeleton" []
          [ Element "TextLineSkeleton" [("width", "98%")] [] ;
            Element "TextLineSkeleton" [("width", "100%")] [] ;
            Element "TextLineSkeleton" [("width", "96%")] [] ;
            Element "TextLineSkeleton" [("width", "65%")] [] ] ;
        Element "SquareSkeleton"
          [("width", "75%"); ("height", to_text (height element) ++ "pt")] [] ].

(** [memo(RawAppSkeleton)]: the same render, not repeated while the props
    are the same. *)
Definition AppSkeleton (element : SkeletonProto) (visible : bool) : ReactElement :=
  RawAppSkeleton element visible.

(** What is on screen: the latest render of the mounted instance. *)
Definition output (w : World) : option ReactElement :=
  option_map (fun i => AppSkeleton (element i) (visible i)) (instance w).

(** The [height] prop of the square skeleton on screen. *)
Definition square_height (w : World) : option string :=
  match output w with
  | Some tree =>
      match find_type "SquareSkeleton" tree with
      | Some ps => attr "height" ps
      | None => None
      end
  | None => None
  end.

(** ** Notions the statements below use *)

(** A computation that leaves the store as it found it. *)
Definition read_only {P A} (m : M P A) : Prop := forall s, snd (m s) = s.

(** The three phases of an instance mounted at [t0] whose timeout is [id0]. *)

Local Open Scope N_scope.

Definition the_timer (t0 id0 : N) : timer :=
  {| timer_id := id0; deadline := t0 + SHOW_DELAY_MS; handler := CallSetVisible true |}.

(** Mounted at [t0], the timeout still pending. *)
Definition waiting_world (t0 id0 : N) (e : SkeletonProto) (t : N) (log : list action) : World :=
  {| now := t; next_timer := id0 + 1; timers := [the_timer t0 id0];
     instance := Some {| element := e; visible := false; cleanup_timer := id0 |};
     calls := log |}.

(** Mounted, the timeout has fired. *)
Definition shown_world (id0 : N) (e : SkeletonProto) (t : N) (log : list action) : World :=
  {| now := t; next_timer := id0 + 1; timers := [];
     instance := Some {| element := e; visible := true; cleanup_timer := id0 |};
     calls := log |}.

(** Unmounted. *)
Definition gone_world (id0 : N) (t : N) (log : list action) : World :=
  {| now := t; next_timer := id0 + 1; timers := []; instance := None; calls := log |}.

Definition is_setVisible (a : action) : bool :=
  match a with
  | ASetVisible _ => true
  | _ => false
  end.

(** How often the state setter has been called. *)
Definition count_setVisible (log : list action) : nat :=
  List.length (filter is_setVisible log).

Definition setVisible_calls (w : World) : nat := count_setVisible (calls w).

Local Close Scope N_scope.

(** Two numbers that are the same value, bit for bit. *)
Definition same_number (a b : number) : bool :=
  match a, b with
  | S754_zero s, S754_zero s' => Bool.eqb s s'
  | S754_infinity s, S754_infinity s' => Bool.eqb s s'
  | S754_nan, S754_nan => true
  | S754_finite s m e, S754_finite s' m' e' =>
      Bool.eqb s s' && Pos.eqb m m' && Z.eqb e e'
  | _, _ => false
  end.

(** [f] holds of the [n] integers from [z] on. *)
Fixpoint all_from (n : nat) (z : Z) (f : Z -> bool) : bool :=
  match n with
  | O => true
  | S n' => f z && all_from n' (z + 1)%Z f
  end.

(** The two widths [StyledSidebar] computes for an expanded sidebar in a
    window [w] pixels wide. *)
Definition expanded_minWidth (w : Z) : number := Math_min (of_Z 244) (of_Z w).
Definition expanded_maxWidth (w : Z) : number :=
  Math_min (of_Z 550) (mul (of_Z w) lit_0_9).

(** The rules that take nothing from the theme or from [window]. *)
Definition props_only (r : rule_name) : bool :=
  match r with
  | N_StyledSidebarNavContainer
  | N_StyledSidebarNavLinkContainer
  | N_StyledSidebarContent
  | N_StyledNoLogoSpacer
  | N_StyledCollapseSidebarButton => true
  | _ => false
  end.

(** The worlds a component mounted at [t0] with timeout [id0] can be in,
    each with the calls made so far. *)
Inductive phase (t0 id0 : N) : World -> Prop :=
| phase_waiting e t :
    (t < t0 + SHOW_DELAY_MS)%N ->
    phase t0 id0 (waiting_world t0 id0 e t [ASetTimeout id0 SHOW_DELAY_MS])
| phase_shown e t :
    (t0 + SHOW_DELAY_MS <= t)%N ->
    phase t0 id0
      (shown_world id0 e t [ASetVisible true; ASetTimeout id0 SHOW_DELAY_MS])
| phase_gone_early t :
    phase t0 id0
      (gone_world id0 t
         [AUnmounted; AClearTimeout id0; ASetTimeout id0 SHOW_DELAY_MS])
| phase_gone_late t :
    phase t0 id0
      (gone_world id0 t
         [AUnmounted; AClearTimeout id0; ASetVisible true;
          ASetTimeout id0 SHOW_DELAY_MS]).

(** ** Facts about numbers *)

Lemma mul_comm (a b : number) : mul a b = mul b a.
Proof.
  unfold mul, SFmul.
  destruct a as [sa | sa | | sa ma ea], b as [sb | sb | | sb mb eb];
    try reflexivity; rewrite (xorb_comm sa sb); try reflexivity.
  now rewrite (Pos.mul_comm ma mb), (Z.add_comm ea eb).
Qed.

(** ** Facts about the monad: computations that only read *)

Lemma read_only_ret {P A} (a : A) : read_only (@ret P A a).
Proof. intros s. reflexivity. Qed.

Lemma read_only_bind {P A B} (m : M P A) (k : A -> M P B) :
  read_only m -> (forall a, read_only (k a)) -> read_only (bind m k).
Proof.
  intros Hm Hk s. unfold bind.
  specialize (Hm s). destruct (m s) as [a s']. simpl in Hm. subst s'.
  apply Hk.
Qed.

Lemma read_only_prop {P A} (f : P -> A) : read_only (prop f).
Proof. intros s. reflexivity. Qed.

Lemma read_only_theme {P} : read_only (@theme_ P).
Proof. intros s. reflexivity. Qed.

Lemma read_only_window_innerWidth {P} : read_only (@window_innerWidth P).
Proof. intros s. reflexivity. Qed.

Lemma read_only_if {P A} (b : bool) (m1 m2 : M P A) :
  read_only m1 -> read_only m2 -> read_only (if b then m1 else m2).
Proof. destruct b; trivial. Qed.

Create HintDb read_only.
#[local] Hint Resolve read_only_ret read_only_bind read_only_prop read_only_theme
  read_only_window_innerWidth read_only_if : read_only.

Ltac read_only_rule :=
  cbv zeta; repeat (apply read_only_bind; [ auto with read_only | intro ]; cbv zeta);
  auto with read_only.

Lemma style_rule_read_only (r : rule_name) : read_only (style_rule r).
Proof.
  destruct r; simpl style_rule;
    match goal with |- read_only ?rule => unfold rule end; read_only_rule.
Qed.

(** A rule that does not consult [window] yields the same style in any two
    stores with the same props and theme. *)
Lemma style_rule_same_style (r : rule_name) (s1 s2 : Store (props_of r)) :
  st_props s1 = st_props s2 ->
  st_theme s1 = st_theme s2 ->
  (reads_window r (st_props s1) = true ->
   innerWidth (st_window s1) = innerWidth (st_window s2)) ->
  style_of (style_rule r) s1 = style_of (style_rule r) s2.
Proof.
  destruct s1 as [w1 t1 p1], s2 as [w2 t2 p2]; simpl.
  intros Hp Ht Hw; subst p2 t2.
  destruct r; try reflexivity.
  simpl in p1, Hw |- *. destruct p1 as [[|] adjustTop sidebarWidth]; simpl in Hw.
  - reflexivity.
  - unfold style_of, StyledSidebar, bind, prop, theme_, window_innerWidth, ret; simpl.
    rewrite (Hw eq_refl). reflexivity.
Qed.

(** ** The sidebar style rules *)

(** C7. No style rule of the sidebar module changes the theme or the props:
    after any rule has run, in any store, the theme and the props (and
    [window]) are the objects they were. *)
Theorem style_rules_leave_theme_and_props_unchanged
  (r : rule_name) (s : Store (props_of r)) :
  st_theme (store_after (style_rule r) s) = st_theme s /\
  st_props (store_after (style_rule r) s) = st_props s /\
  store_after (style_rule r) s = s.
Proof.
  assert (H : store_after (style_rule r) s = s) by apply style_rule_read_only.
  rewrite H. auto.
Qed.

(** C2, amended. A style rule is a function of its props and the theme, and
    of [window.innerWidth] where it reads it ([StyledSidebar] with
    [isCollapsed] false): two evaluations with equal props, equal theme and,
    for such a rule, equal window width yield the same style, and neither
    changes the store. *)
Theorem style_rules_determined_by_props_theme_and_window_width
  (r : rule_name) (s1 s2 : Store (props_of r)) :
  st_props s1 = st_props s2 ->
  st_theme s1 = st_theme s2 ->
  (reads_window r (st_props s1) = true ->
   innerWidth (st_window s1) = innerWidth (st_window s2)) ->
  style_of (style_rule r) s1 = style_of (style_rule r) s2 /\
  store_after (style_rule r) s1 = s1 /\
  store_after (style_rule r) s2 = s2.
Proof.
  intros Hp Ht Hw. split; [ | split ].
  - apply style_rule_same_style; assumption.
  - apply style_rule_read_only.
  - apply style_rule_read_only.
Qed.

(** C5. [StyledSidebarNavItems] sets [maxHeight] to ["100vh"] when
    [hasSidebarElements] is false, to ["75vh"] when [hasSidebarElements] and
    [isExpanded] are true, and to ["33vh"] when [hasSidebarElements] is true
    and [isExpanded] is false, whatever [isOverflowing] is. *)
Theorem StyledSidebarNavItems_maxHeight (s : Store StyledSidebarNavItemsProps.t) :
  let p := st_props s in
  let maxHeight := get "maxHeight" (style_of StyledSidebarNavItems s) in
  (StyledSidebarNavItemsProps.hasSidebarElements p = false ->
   maxHeight = Some (VString "100vh")) /\
  (StyledSidebarNavItemsProps.hasSidebarElements p = true ->
   StyledSidebarNavItemsProps.isExpanded p = true ->
   maxHeight = Some (VString "75vh")) /\
  (StyledSidebarNavItemsProps.hasSidebarElements p = true ->
   StyledSidebarNavItemsProps.isExpanded p = false ->
   maxHeight = Some (VString "33vh")).
Proof.
  destruct s as [w t [isExpanded isOverflowing hasSidebarElements]]; simpl.
  repeat split; intros; subst; reflexivity.
Qed.

(** C8. With [isCollapsed] true, [StyledSidebar] yields [minWidth] 0,
    [maxWidth] 0 and the transform ["translateX(-<sidebarWidth>px)"],
    whatever the window width and the other props; with [isCollapsed] false
    the transform is ["none"], [minWidth] is the minimum of 244 and the
    window width and [maxWidth] the minimum of 550 and 0.9 times the window
    width (as numbers are multiplied in JS). *)
Theorem StyledSidebar_widths_and_transform (s : Store StyledSidebarProps.t) :
  let p := st_props s in
  let width := innerWidth (st_window s) in
  let style := style_of StyledSidebar s in
  (StyledSidebarProps.isCollapsed p = true ->
   get "minWidth" style = Some (num 0) /\
   get "maxWidth" style = Some (num 0) /\
   get "transform" style =
     Some (VString ("translateX(-" ++ StyledSidebarProps.sidebarWidth p ++ "px)"))) /\
  (StyledSidebarProps.isCollapsed p = false ->
   get "transform" style = Some (VString "none") /\
   get "minWidth" style = Some (VNumber (Math_min (of_Z 244) width)) /\
   get "maxWidth" style = Some (VNumber (Math_min (of_Z 550) (mul lit_0_9 width)))).
Proof.
  destruct s as [[width] t [isCollapsed adjustTop sidebarWidth]]; cbv zeta.
  rewrite (mul_comm lit_0_9 _).
  split; cbn [st_props StyledSidebarProps.isCollapsed]; intros ->;
    repeat split; reflexivity.
Qed.

(** C9. [StyledSidebarNavSeparatorContainer] sets [cursor] to ["pointer"]
    if and only if [isExpanded] or [isOverflowing] is true, and to
    ["default"] otherwise. *)
Theorem StyledSidebarNavSeparatorContainer_cursor
  (s : Store StyledSidebarNavSeparatorContainerProps.t) :
  let p := st_props s in
  let cursor := get "cursor" (style_of StyledSidebarNavSeparatorContainer s) in
  (cursor = Some (VString "pointer") <->
   StyledSidebarNavSeparatorContainerProps.isExpanded p = true \/
   StyledSidebarNavSeparatorContainerProps.isOverflowing p = true) /\
  (cursor = Some (VString "default") <->
   ~ (StyledSidebarNavSeparatorContainerProps.isExpanded p = true \/
      StyledSidebarNavSeparatorContainerProps.isOverflowing p = true)).
Proof.
  destruct s as [w t [[|] [|]]]; cbn; split; split; intros H;
    try reflexivity; try discriminate H;
    try (left; reflexivity); try (right; reflexivity);
    try (exfalso; apply H; left; reflexivity);
    try (exfalso; apply H; right; reflexivity);
    try (destruct H as [H | H]; discriminate H);
    try (intros [H' | H']; discriminate H').
Qed.

(** C10. [StyledLogo] sets [height] to ["1.5rem"] exactly when [size] is
    the string ["fixed"]; for every other string, the empty one included, it
    is ["auto"]. *)
Theorem StyledLogo_height (s : Store StyledLogoProps.t) :
  let size := StyledLogoProps.size (st_props s) in
  let height := get "height" (style_of StyledLogo s) in
  (size = "fixed" -> height = Some (VString "1.5rem")) /\
  (size <> "fixed" -> height = Some (VString "auto")) /\
  (height = Some (VString "1.5rem") -> size = "fixed").
Proof.
  destruct s as [w t [size]]; simpl.
  change (get "height" (style_of StyledLogo {| st_window := w; st_theme := t;
            st_props := {| StyledLogoProps.size := size |} |}))
    with (Some (VString (if String.eqb size "fixed" then "1.5rem" else "auto"))).
  destruct (String.eqb_spec size "fixed") as [-> | Hne].
  - repeat split; intros; congruence.
  - repeat split; intros; congruence.
Qed.

(** ** The app skeleton: how an instance moves through its phases *)

Local Open Scope N_scope.

Lemma mount_idle t0 id0 e :
  mount e (idle t0 id0) = waiting_world t0 id0 e t0 [ASetTimeout id0 SHOW_DELAY_MS].
Proof. reflexivity. Qed.

Lemma advance_waiting_early t0 id0 e t log dt :
  t + dt < t0 + SHOW_DELAY_MS ->
  advance dt (waiting_world t0 id0 e t log) = waiting_world t0 id0 e (t + dt) log.
Proof.
  intros H. unfold advance, waiting_world, due; simpl.
  destruct (N.leb_spec (t0 + SHOW_DELAY_MS) (t + dt)) as [Hle | Hlt]; [ lia | reflexivity ].
Qed.

Lemma advance_waiting_due t0 id0 e t log dt :
  t0 + SHOW_DELAY_MS <= t + dt ->
  advance dt (waiting_world t0 id0 e t log)
  = shown_world id0 e (t + dt) (ASetVisible true :: log).
Proof.
  intros H. unfold advance, waiting_world, due; simpl.
  destruct (N.leb_spec (t0 + SHOW_DELAY_MS) (t + dt)) as [Hle | Hlt]; [ reflexivity | lia ].
Qed.

Lemma advance_shown id0 e t log dt :
  advance dt (shown_world id0 e t log) = shown_world id0 e (t + dt) log.
Proof. reflexivity. Qed.

Lemma advance_gone id0 t log dt :
  advance dt (gone_world id0 t log) = gone_world id0 (t + dt) log.
Proof. reflexivity. Qed.

Lemma unmount_waiting t0 id0 e t log :
  unmount (waiting_world t0 id0 e t log)
  = gone_world id0 t (AUnmounted :: AClearTimeout id0 :: log).
Proof.
  unfold unmount, waiting_world, gone_world, cleanup, clearTimeout; simpl.
  rewrite N.eqb_refl. reflexivity.
Qed.

Lemma unmount_shown id0 e t log :
  unmount (shown_world id0 e t log)
  = gone_world id0 t (AUnmounted :: AClearTimeout id0 :: log).
Proof. reflexivity. Qed.

Lemma step_gone id0 t log ev :
  exists t', step (gone_world id0 t log) ev = gone_world id0 t' log.
Proof. destruct ev; eexists; reflexivity. Qed.

Lemma elapsed_shift (evs : list event) (a : N) :
  fold_left (fun t ev => match ev with Advance dt => t + dt | _ => t end) evs a
  = a + elapsed evs.
Proof.
  unfold elapsed. revert a.
  induction evs as [| ev evs IH]; intros a; simpl.
  - lia.
  - destruct ev as [dt | e' |]; simpl; [ | apply IH | apply IH ].
    rewrite (IH (a + dt)), (IH dt). lia.
Qed.

Lemma elapsed_cons ev evs :
  elapsed (ev :: evs)
  = match ev with Advance dt => dt | _ => 0 end + elapsed evs.
Proof.
  unfold elapsed at 1; simpl. rewrite elapsed_shift. destruct ev; lia.
Qed.

(** Where the clock is read does not matter: one advance is as good as
    two that add up to it. *)
Lemma advance_waiting_split t0 id0 e t log a b :
  advance (a + b) (waiting_world t0 id0 e t log)
  = advance b (advance a (waiting_world t0 id0 e t log)).
Proof.
  destruct (N.lt_ge_cases (t + a) (t0 + SHOW_DELAY_MS)) as [Ha | Ha].
  - rewrite (advance_waiting_early t0 id0 e t log a) by assumption.
    destruct (N.lt_ge_cases (t + a + b) (t0 + SHOW_DELAY_MS)) as [Hb | Hb].
    + rewrite !advance_waiting_early by lia. now rewrite N.add_assoc.
    + rewrite !advance_waiting_due by lia. now rewrite N.add_assoc.
  - rewrite (advance_waiting_due t0 id0 e t log a) by assumption.
    rewrite advance_waiting_due by lia.
    rewrite advance_shown. now rewrite N.add_assoc.
Qed.

(** A shown instance stays shown while it is mounted. *)
Lemma run_shown id0 evs : forall e t log,
  forallb keeps_mounted evs = true ->
  run evs (shown_world id0 e t log)
  = shown_world id0 (current_props e evs) (t + elapsed evs) log.
Proof.
  induction evs as [| ev evs IH]; intros e t log Hm.
  - unfold elapsed; simpl. now rewrite N.add_0_r.
  - simpl in Hm. apply andb_true_iff in Hm as [Hev Hm].
    rewrite elapsed_cons. destruct ev as [dt | e' |]; try discriminate; simpl.
    + rewrite advance_shown.
      change (fold_left step evs ?w) with (run evs w).
      change (fold_left _ evs e) with (current_props e evs).
      rewrite IH by assumption. f_equal. lia.
    + change (rerender e' (shown_world id0 e t log)) with (shown_world id0 e' t log).
      change (fold_left step evs ?w) with (run evs w).
      change (fold_left _ evs e') with (current_props e' evs).
      now rewrite IH.
Qed.

(** A waiting instance waits until the clock reaches the deadline, and is
    shown from then on. *)
Lemma run_waiting t0 id0 evs : forall e t log,
  forallb keeps_mounted evs = true ->
  t < t0 + SHOW_DELAY_MS ->
  run evs (waiting_world t0 id0 e t log)
  = if t + elapsed evs <? t0 + SHOW_DELAY_MS
    then waiting_world t0 id0 (current_props e evs) (t + elapsed evs) log
    else shown_world id0 (current_props e evs) (t + elapsed evs) (ASetVisible true :: log).
Proof.
  induction evs as [| ev evs IH]; intros e t log Hm Ht.
  - unfold elapsed; simpl. rewrite N.add_0_r.
    destruct (N.ltb_spec t (t0 + SHOW_DELAY_MS)); [ reflexivity | lia ].
  - simpl in Hm. apply andb_true_iff in Hm as [Hev Hm].
    rewrite elapsed_cons. destruct ev as [dt | e' |]; try discriminate; simpl.
    + change (fold_left step evs ?w) with (run evs w).
      change (fold_left _ evs e) with (current_props e evs).
      destruct (N.lt_ge_cases (t + dt) (t0 + SHOW_DELAY_MS)) as [Hlt | Hge].
      * rewrite advance_waiting_early by assumption.
        rewrite IH by assumption. now rewrite N.add_assoc.
      * rewrite advance_waiting_due by assumption.
        rewrite run_shown by assumption.
        destruct (N.ltb_spec (t + (dt + elapsed evs)) (t0 + SHOW_DELAY_MS)); [ lia | ].
        now rewrite N.add_assoc.
    + change (rerender e' (waiting_world t0 id0 e t log))
        with (waiting_world t0 id0 e' t log).
      change (fold_left step evs ?w) with (run evs w).
      change (fold_left _ evs e') with (current_props e' evs).
      now rewrite IH.
Qed.

(** From mount on, in terms of the time elapsed. *)
Lemma run_mounted t0 id0 e evs :
  forallb keeps_mounted evs = true ->
  run evs (mount e (idle t0 id0))
  = if elapsed evs <? SHOW_DELAY_MS
    then waiting_world t0 id0 (current_props e evs) (t0 + elapsed evs)
           [ASetTimeout id0 SHOW_DELAY_MS]
    else shown_world id0 (current_props e evs) (t0 + elapsed evs)
           [ASetVisible true; ASetTimeout id0 SHOW_DELAY_MS].
Proof.
  intros Hm. rewrite mount_idle, run_waiting by (assumption || (unfold SHOW_DELAY_MS; lia)).
  destruct (N.ltb_spec (t0 + elapsed evs) (t0 + SHOW_DELAY_MS));
    destruct (N.ltb_spec (elapsed evs) SHOW_DELAY_MS); try reflexivity; lia.
Qed.
Local Close Scope N_scope.

Lemma run_gone id0 evs : forall t log,
  exists t', run evs (gone_world id0 t log) = gone_world id0 t' log.
Proof.
  induction evs as [| ev evs IH]; intros t log; simpl.
  - now exists t.
  - destruct (step_gone id0 t log ev) as [t' ->]. apply IH.
Qed.

Lemma flags_gone id0 evs : forall t log,
  flags evs (gone_world id0 t log) = repeat None (S (List.length evs)).
Proof.
  induction evs as [| ev evs IH]; intros t log; simpl.
  - reflexivity.
  - destruct (step_gone id0 t log ev) as [t' ->]. rewrite IH. reflexivity.
Qed.

Lemma flags_shown id0 evs : forall e t log,
  exists m k,
    flags evs (shown_world id0 e t log) = (repeat (Some true) (S m) ++ repeat None k)%list.
Proof.
  induction evs as [| ev evs IH]; intros e t log.
  - exists 0%nat, 0%nat. reflexivity.
  - cbn [flags]. destruct ev as [dt | e' |]; cbn [step].
    + rewrite advance_shown. destruct (IH e (t + dt)%N log) as (m & k & ->).
      exists (S m), k. reflexivity.
    + change (rerender e' (shown_world id0 e t log)) with (shown_world id0 e' t log).
      destruct (IH e' t log) as (m & k & ->).
      exists (S m), k. reflexivity.
    + rewrite unmount_shown, flags_gone.
      exists 0%nat, (S (List.length evs)). reflexivity.
Qed.

Lemma flags_waiting t0 id0 evs : forall e t log,
  exists n m k,
    flags evs (waiting_world t0 id0 e t log)
    = (repeat (Some false) (S n) ++ repeat (Some true) m ++ repeat None k)%list.
Proof.
  induction evs as [| ev evs IH]; intros e t log.
  - exists 0%nat, 0%nat, 0%nat. reflexivity.
  - cbn [flags]. destruct ev as [dt | e' |]; cbn [step].
    + destruct (N.lt_ge_cases (t + dt) (t0 + SHOW_DELAY_MS)) as [Hlt | Hge].
      * rewrite advance_waiting_early by assumption.
        destruct (IH e (t + dt)%N log) as (n & m & k & ->).
        exists (S n), m, k. reflexivity.
      * rewrite advance_waiting_due by assumption.
        destruct (flags_shown id0 evs e (t + dt)%N (ASetVisible true :: log))
          as (m & k & ->).
        exists 0%nat, (S m), k. reflexivity.
    + change (rerender e' (waiting_world t0 id0 e t log))
        with (waiting_world t0 id0 e' t log).
      destruct (IH e' t log) as (n & m & k & ->).
      exists (S n), m, k. reflexivity.
    + rewrite unmount_waiting, flags_gone.
      exists 0%nat, 0%nat, (S (List.length evs)). reflexivity.
Qed.

Lemma calls_shown id0 evs : forall e t log,
  count_setVisible (calls (run evs (shown_world id0 e t log))) = count_setVisible log.
Proof.
  induction evs as [| ev evs IH]; intros e t log.
  - reflexivity.
  - cbn [run fold_left]. destruct ev as [dt | e' |]; cbn [step].
    + rewrite advance_shown. apply IH.
    + change (rerender e' (shown_world id0 e t log)) with (shown_world id0 e' t log).
      apply IH.
    + rewrite unmount_shown.
      destruct (run_gone id0 evs t (AUnmounted :: AClearTimeout id0 :: log)) as [t' Hrun].
      unfold run in Hrun. rewrite Hrun. reflexivity.
Qed.

Lemma calls_waiting t0 id0 evs : forall e t log,
  (count_setVisible (calls (run evs (waiting_world t0 id0 e t log)))
   <= S (count_setVisible log))%nat.
Proof.
  induction evs as [| ev evs IH]; intros e t log.
  - change (count_setVisible log <= S (count_setVisible log))%nat. lia.
  - cbn [run fold_left]. destruct ev as [dt | e' |]; cbn [step].
    + destruct (N.lt_ge_cases (t + dt) (t0 + SHOW_DELAY_MS)) as [Hlt | Hge].
      * rewrite advance_waiting_early by assumption. apply IH.
      * rewrite advance_waiting_due by assumption.
        pose proof (calls_shown id0 evs e (t + dt)%N (ASetVisible true :: log)) as H.
        unfold run in H. rewrite H.
        change (count_setVisible (ASetVisible true :: log)) with (S (count_setVisible log)).
        lia.
    + change (rerender e' (waiting_world t0 id0 e t log))
        with (waiting_world t0 id0 e' t log).
      apply IH.
    + rewrite unmount_waiting.
      destruct (run_gone id0 evs t (AUnmounted :: AClearTimeout id0 :: log)) as [t' Hrun].
      unfold run in Hrun. rewrite Hrun.
      change (count_setVisible log <= S (count_setVisible log))%nat. lia.
Qed.

(** ** The app skeleton: the claims *)

(** C1. Whatever the element prop, while the component stays mounted it
    renders an empty fragment at every instant before [SHOW_DELAY_MS] (500)
    milliseconds have passed since mount, and at every instant from then on
    the placeholder layout: one title skeleton, four text-line skeletons and
    one square skeleton. *)
Theorem skeleton_absent_before_delay_present_after
  (t0 id0 : N) (e : SkeletonProto) (evs : list event) :
  forallb keeps_mounted evs = true ->
  let w := run evs (mount e (idle t0 id0)) in
  SHOW_DELAY_MS = 500%N /\
  ((elapsed evs < SHOW_DELAY_MS)%N -> output w = Some (Fragment [])) /\
  ((SHOW_DELAY_MS <= elapsed evs)%N ->
   exists tree,
     output w = Some tree /\
     count_type "StyledSkeleton" tree = 1%nat /\
     count_type "TitleSkeleton" tree = 1%nat /\
     count_type "TextLineSkeleton" tree = 4%nat /\
     count_type "SquareSkeleton" tree = 1%nat).
Proof.
  intros Hm w. subst w. rewrite run_mounted by assumption.
  split; [ reflexivity | split ]; intros Ht.
  - destruct (N.ltb_spec (elapsed evs) SHOW_DELAY_MS); [ reflexivity | lia ].
  - destruct (N.ltb_spec (elapsed evs) SHOW_DELAY_MS); [ lia | ].
    eexists. split; [ reflexivity | ]. repeat split; reflexivity.
Qed.

(** C6. Once the delay has passed, the square skeleton on screen has the
    height [element.height + "pt"]: the text of the element's height
    followed by ["pt"], for every element prop. *)
Theorem skeleton_square_height
  (t0 id0 : N) (e : SkeletonProto) (evs : list event) :
  forallb keeps_mounted evs = true ->
  (SHOW_DELAY_MS <= elapsed evs)%N ->
  square_height (run evs (mount e (idle t0 id0)))
  = Some (to_text (height (current_props e evs)) ++ "pt").
Proof.
  intros Hm Ht. rewrite run_mounted by assumption.
  destruct (N.ltb_spec (elapsed evs) SHOW_DELAY_MS); [ lia | reflexivity ].
Qed.

(** C3. The visibility flag is false on mount; along any run of the
    component it is false for a while, then possibly true, and is never
    false again while the component is mounted; the state setter is called
    at most once. *)
Theorem visible_flag_rises_at_most_once_and_never_falls
  (t0 id0 : N) (e : SkeletonProto) (evs : list event) :
  let w0 := mount e (idle t0 id0) in
  flag w0 = Some false /\
  (exists n m k,
     flags evs w0
     = (repeat (Some false) (S n) ++ repeat (Some true) m ++ repeat None k)%list) /\
  (setVisible_calls (run evs w0) <= 1)%nat.
Proof.
  intros w0. subst w0. rewrite mount_idle.
  split; [ reflexivity | split ].
  - apply flags_waiting.
  - apply (calls_waiting t0 id0 evs e t0 [ASetTimeout id0 SHOW_DELAY_MS]).
Qed.

(** C4. If the component is unmounted before the timeout has fired, the
    cleanup clears the timeout: no timeout is left pending, and whatever
    happens afterwards the state setter is never called. *)
Theorem unmount_before_delay_cancels_timer
  (t0 id0 : N) (e : SkeletonProto) (evs1 evs2 : list event) :
  forallb keeps_mounted evs1 = true ->
  (elapsed evs1 < SHOW_DELAY_MS)%N ->
  let w := step (run evs1 (mount e (idle t0 id0))) Unmount in
  timers w = [] /\
  In (AClearTimeout id0) (calls w) /\
  timers (run evs2 w) = [] /\
  forall v, ~ In (ASetVisible v) (calls (run evs2 w)).
Proof.
  intros Hm Ht w. subst w. rewrite run_mounted by assumption.
  destruct (N.ltb_spec (elapsed evs1) SHOW_DELAY_MS); [ | lia ].
  cbn [step]. rewrite unmount_waiting.
  destruct (run_gone id0 evs2 (t0 + elapsed evs1)%N
              [AUnmounted; AClearTimeout id0; ASetTimeout id0 SHOW_DELAY_MS])
    as [t' ->].
  repeat split; try reflexivity.
  - simpl. auto.
  - intros v [H' | [H' | [H' | []]]]; discriminate.
Qed.

(** ** Further facts: objects *)

Lemma get_set_same k v o : get k (set k v o) = Some v.
Proof.
  induction o as [| [k' v'] o IH]; simpl.
  - now rewrite String.eqb_refl.
  - destruct (String.eqb k k') eqn:E; simpl; rewrite E; [ reflexivity | exact IH ].
Qed.

Lemma get_set_other k k' v o : k <> k' -> get k (set k' v o) = get k o.
Proof.
  intros Hne. induction o as [| [k0 v0] o IH]; simpl.
  - destruct (String.eqb_spec k k'); [ contradiction | reflexivity ].
  - destruct (String.eqb_spec k' k0) as [-> | Hk0]; simpl.
    + destruct (String.eqb_spec k k0); [ contradiction | reflexivity ].
    + destruct (String.eqb k k0); [ reflexivity | exact IH ].
Qed.

Lemma get_absent k (o : object) : ~ In k (map fst o) -> get k o = None.
Proof.
  induction o as [| [k' v'] o IH]; simpl; intros Hn.
  - reflexivity.
  - destruct (String.eqb_spec k k') as [-> | Hne].
    + exfalso. apply Hn. now left.
    + apply IH. intros Hin. apply Hn. now right.
Qed.

(** What [{ ...o, ...src }] holds at [k]: the value of [src] if it has the
    key, that of [o] if not. *)
Lemma get_spread k (src : object) : forall o,
  NoDup (map fst src) ->
  get k (fold_left (fun acc kv => set (fst kv) (snd kv) acc) src o)
  = match get k src with
    | Some v => Some v
    | None => get k o
    end.
Proof.
  induction src as [| [k1 v1] src IH]; intros o Hnd; simpl.
  - reflexivity.
  - inversion Hnd as [| ? ? Hnotin Hnd']; subst.
    rewrite IH by assumption.
    destruct (String.eqb_spec k k1) as [-> | Hne].
    + rewrite (get_absent k1 src Hnotin). apply get_set_same.
    + destruct (get k src); [ reflexivity | now apply get_set_other ].
Qed.

Lemma same_number_eq a b : same_number a b = true -> a = b.
Proof.
  destruct a as [s | s | | s m e], b as [s' | s' | | s' m' e']; simpl;
    try discriminate; try reflexivity.
  - intros H. apply Bool.eqb_prop in H. now subst.
  - intros H. apply Bool.eqb_prop in H. now subst.
  - intros H. apply andb_true_iff in H as [H He]. apply andb_true_iff in H as [Hs Hm].
    apply Bool.eqb_prop in Hs. apply Pos.eqb_eq in Hm. apply Z.eqb_eq in He.
    now subst.
Qed.

Lemma all_from_spec (f : Z -> bool) (n : nat) : forall z,
  all_from n z f = true ->
  forall w, (z <= w < z + Z.of_nat n)%Z -> f w = true.
Proof.
  induction n as [| n IH]; intros z Hall w Hw.
  - simpl in Hw. lia.
  - simpl in Hall. apply andb_true_iff in Hall as [Hz Hall].
    destruct (Z.eq_dec w z) as [-> | Hne]; [ exact Hz | ].
    apply (IH (z + 1)%Z Hall). lia.
Qed.

(** ** Further facts: the sidebar *)

(** The style of an expanded sidebar, property by property. *)
Lemma StyledSidebar_expanded_style win t adjustTop sidebarWidth :
  style_of StyledSidebar
    (Build_Store win t
       {| StyledSidebarProps.isCollapsed := false;
          StyledSidebarProps.adjustTop := adjustTop;
          StyledSidebarProps.sidebarWidth := sidebarWidth |})
  = [ ("position", VString "relative");
      ("top", VString (if adjustTop then "2px" else "0px"));
      ("backgroundColor", VString (Colors.bgColor (colors t)));
      ("zIndex", VNumber (add (ZIndices.header (zIndices t)) (of_Z 1)));
      ("minWidth", VNumber (Math_min (of_Z 244) (innerWidth win)));
      ("maxWidth", VNumber (Math_min (of_Z 550) (mul (innerWidth win) lit_0_9)));
      ("transform", VString "none");
      ("transition", VString "transform 300ms, min-width 300ms, max-width 300ms");
      ("&:focus", VObject [("outline", VString "none")]);
      ("@media (max-width: " ++ Breakpoints.md (breakpoints t) ++ ")",
       VObject [("boxShadow", VString "-2rem 0 2rem 2rem #00000029")]);
      ("@media print",
       VObject [("backgroundColor", VString "transparent");
                ("margin", VString "auto");
                ("boxShadow", VString "none");
                ("maxWidth", VString "none");
                ("minWidth", VString "100%");
                ("width", VString "100% !important");
                ("paddingTop", VString "1rem")]) ].
Proof. destruct adjustTop; reflexivity. Qed.

(** X1. Whatever the breakpoint string of the theme, the object
    [StyledSidebar] returns has its eleven properties in source order, all
    distinct: the computed media query neither replaces a property nor is
    replaced by the print rule. Under the query the shadow is transparent
    exactly for a collapsed sidebar, and the print rule resets both widths. *)
Theorem StyledSidebar_properties (s : Store StyledSidebarProps.t) :
  let style := style_of StyledSidebar s in
  let query := "@media (max-width: " ++ Breakpoints.md (breakpoints (st_theme s)) ++ ")" in
  map fst style
  = ["position"; "top"; "backgroundColor"; "zIndex"; "minWidth"; "maxWidth";
     "transform"; "transition"; "&:focus"; query; "@media print"] /\
  NoDup (map fst style) /\
  get query style
  = Some (VObject
            [("boxShadow",
              VString ("-2rem 0 2rem 2rem " ++
                       (if StyledSidebarProps.isCollapsed (st_props s)
                        then "transparent" else "#00000029")))]) /\
  (exists print,
     get "@media print" style = Some (VObject print) /\
     get "minWidth" print = Some (VString "100%") /\
     get "maxWidth" print = Some (VString "none")).
Proof.
  destruct s as [win t [isCollapsed adjustTop sidebarWidth]]; cbv zeta.
  assert (Hkeys :
    map fst (style_of StyledSidebar
               (Build_Store win t
                  {| StyledSidebarProps.isCollapsed := isCollapsed;
                     StyledSidebarProps.adjustTop := adjustTop;
                     StyledSidebarProps.sidebarWidth := sidebarWidth |}))
    = ["position"; "top"; "backgroundColor"; "zIndex"; "minWidth"; "maxWidth";
       "transform"; "transition"; "&:focus";
       "@media (max-width: " ++ Breakpoints.md (breakpoints t) ++ ")";
       "@media print"])
    by (destruct isCollapsed; reflexivity).
  split; [ exact Hkeys | split; [ | split ] ].
  - rewrite Hkeys.
    repeat (constructor;
            [ cbn; intros H;
              repeat (destruct H as [H | H]; [ discriminate H | ]); exact H | ]).
    constructor.
  - destruct isCollapsed; cbn; rewrite String.eqb_refl; reflexivity.
  - eexists. destruct isCollapsed; cbn; repeat split; reflexivity.
Qed.

(** The widths of an expanded sidebar in a window [w] pixels wide. *)
Lemma StyledSidebar_expanded_widths (w : Z) t adjustTop sidebarWidth :
  let style :=
    style_of StyledSidebar
      (Build_Store (window_of_width w) t
         {| StyledSidebarProps.isCollapsed := false;
            StyledSidebarProps.adjustTop := adjustTop;
            StyledSidebarProps.sidebarWidth := sidebarWidth |}) in
  get "minWidth" style = Some (VNumber (expanded_minWidth w)) /\
  get "maxWidth" style = Some (VNumber (expanded_maxWidth w)).
Proof. cbv zeta. rewrite StyledSidebar_expanded_style. split; reflexivity. Qed.

Lemma expanded_widths_checked :
  all_from (Z.to_nat 10001) 0
    (fun w =>
       same_number (expanded_minWidth w) (of_Z (Z.min 244 w)) &&
       (if (612 <=? w)%Z
        then same_number (expanded_maxWidth w) (of_Z 550)
        else same_number (expanded_maxWidth w) (mul (of_Z w) lit_0_9) &&
             SFltb (expanded_maxWidth w) (of_Z 550)) &&
       (if (w =? 0)%Z
        then same_number (expanded_maxWidth w) (expanded_minWidth w)
        else if (w <? 272)%Z
             then SFltb (expanded_maxWidth w) (expanded_minWidth w)
             else SFleb (expanded_minWidth w) (expanded_maxWidth w)))
  = true.
Proof. vm_compute. reflexivity. Qed.

(** X2. In a window between 0 and 10000 pixels wide, an expanded sidebar
    gets [minWidth] min(244, width) exactly, and [maxWidth] 550 exactly from
    612 pixels on; below 612 pixels [maxWidth] is the product width * 0.9
    and less than 550. *)
Theorem StyledSidebar_width_clamps
  (w : Z) (t : Theme) (p : StyledSidebarProps.t) :
  StyledSidebarProps.isCollapsed p = false ->
  (0 <= w <= 10000)%Z ->
  let style := style_of StyledSidebar (Build_Store (window_of_width w) t p) in
  get "minWidth" style = Some (num (Z.min 244 w)) /\
  ((612 <= w)%Z -> get "maxWidth" style = Some (num 550)) /\
  ((w < 612)%Z ->
   get "maxWidth" style = Some (VNumber (mul (of_Z w) lit_0_9)) /\
   SFltb (mul (of_Z w) lit_0_9) (of_Z 550) = true).
Proof.
  destruct p as [isCollapsed adjustTop sidebarWidth]; simpl. intros -> Hw.
  destruct (StyledSidebar_expanded_widths w t adjustTop sidebarWidth) as [Hmin Hmax].
  rewrite Hmin, Hmax.
  pose proof (all_from_spec _ _ _ expanded_widths_checked w) as Hc.
  cbv beta in Hc. specialize (Hc ltac:(rewrite Z2Nat.id; lia)).
  apply andb_true_iff in Hc as [Hc _]. apply andb_true_iff in Hc as [Hmn Hmx].
  apply same_number_eq in Hmn.
  split; [ unfold num; now rewrite Hmn | split ]; intros Hcase.
  - destruct (Z.leb_spec 612 w); [ | lia ].
    apply same_number_eq in Hmx. unfold num. now rewrite Hmx.
  - destruct (Z.leb_spec 612 w); [ lia | ].
    apply andb_true_iff in Hmx as [Hmx Hlt]. apply same_number_eq in Hmx.
    rewrite Hmx in Hlt |- *. split; [ reflexivity | exact Hlt ].
Qed.

(** X3. In a window from 1 to 271 pixels wide the [maxWidth] of an
    expanded sidebar is smaller than its [minWidth]; from 272 pixels (up to
    10000) on, [minWidth] is at most [maxWidth]. *)
Theorem StyledSidebar_narrow_window_inverts_widths
  (w : Z) (t : Theme) (p : StyledSidebarProps.t) :
  StyledSidebarProps.isCollapsed p = false ->
  (1 <= w <= 10000)%Z ->
  let style := style_of StyledSidebar (Build_Store (window_of_width w) t p) in
  exists minWidth maxWidth,
    get "minWidth" style = Some (VNumber minWidth) /\
    get "maxWidth" style = Some (VNumber maxWidth) /\
    ((w <= 271)%Z -> SFltb maxWidth minWidth = true) /\
    ((272 <= w)%Z -> SFleb minWidth maxWidth = true).
Proof.
  destruct p as [isCollapsed adjustTop sidebarWidth]; simpl. intros -> Hw.
  destruct (StyledSidebar_expanded_widths w t adjustTop sidebarWidth) as [Hmin Hmax].
  exists (expanded_minWidth w), (expanded_maxWidth w).
  split; [ exact Hmin | split; [ exact Hmax | ] ].
  pose proof (all_from_spec _ _ _ expanded_widths_checked w) as Hc.
  cbv beta in Hc. specialize (Hc ltac:(rewrite Z2Nat.id; lia)).
  apply andb_true_iff in Hc as [_ Hc].
  destruct (Z.eqb_spec w 0); [ lia | ].
  split; intros Hcase; destruct (Z.ltb_spec w 272); try lia; exact Hc.
Qed.

(** X4. The window width reaches nothing but [minWidth] and [maxWidth]:
    with the same props and theme, every other property of the
    [StyledSidebar] object is the same in any two windows. *)
Theorem StyledSidebar_window_reaches_widths_only
  (s1 s2 : Store StyledSidebarProps.t) (k : string) :
  st_props s1 = st_props s2 ->
  st_theme s1 = st_theme s2 ->
  k <> "minWidth" -> k <> "maxWidth" ->
  get k (style_of StyledSidebar s1) = get k (style_of StyledSidebar s2).
Proof.
  destruct s1 as [w1 t1 p1], s2 as [w2 t2 p2]; simpl.
  intros <- <- Hmin Hmax.
  destruct p1 as [[|] adjustTop sidebarWidth]; [ reflexivity | ].
  rewrite !StyledSidebar_expanded_style. cbn [get].
  repeat match goal with
         | |- context [String.eqb k ?x] =>
             destruct (String.eqb_spec k x); [ try reflexivity; try contradiction | ]
         end.
  reflexivity.
Qed.

(** X5. [StyledSidebarUserContent] spreads [getWrappedHeadersStyle(theme)]
    last: a property the helper returns has the helper's value, also when
    the rule sets it itself, and any other property has the rule's own
    value. *)
Theorem StyledSidebarUserContent_helper_has_last_word
  (s : Store StyledSidebarUserContentProps.t) (k : string) :
  NoDup (map fst (getWrappedHeadersStyle (st_theme s))) ->
  let theme := st_theme s in
  let own : object :=
    [ ("paddingTop",
       VString (if StyledSidebarUserContentProps.hasPageNavAbove (st_props s)
                then Spacing.lg (spacing theme) else "0"));
      ("paddingBottom", VString (Sizes.sidebarTopSpace (sizes theme)));
      ("paddingLeft", VString (Spacing.twoXL (spacing theme)));
      ("paddingRight", VString (Spacing.twoXL (spacing theme)));
      ("@media print", VObject [("paddingTop", VString "1rem")]) ] in
  get k (style_of StyledSidebarUserContent s)
  = match get k (getWrappedHeadersStyle theme) with
    | Some v => Some v
    | None => get k own
    end.
Proof.
  destruct s as [win t [hasPageNavAbove]]; cbv zeta. intros Hnd.
  cbn [st_theme st_props StyledSidebarUserContentProps.hasPageNavAbove] in *.
  rewrite <- (get_spread k (getWrappedHeadersStyle t) _ Hnd).
  destruct hasPageNavAbove; reflexivity.
Qed.

(** X6. [StyledSidebarNavLink] gives the link the same text decoration and
    font weight in its active, visited and hover states as at rest, and
    nothing else there; the weight is 600 for the active page and 400
    otherwise, and the background on hover is one step darker than at
    rest. *)
Theorem StyledSidebarNavLink_states (s : Store StyledSidebarNavLinkProps.t) :
  let isActive := StyledSidebarNavLinkProps.isActive (st_props s) in
  let c := colors (st_theme s) in
  let style := style_of StyledSidebarNavLink s in
  exists states hover,
    get "&:active,&:visited,&:hover" style = Some (VObject states) /\
    map fst states = ["textDecoration"; "fontWeight"] /\
    get "textDecoration" states = get "textDecoration" style /\
    get "fontWeight" states = get "fontWeight" style /\
    get "fontWeight" style = Some (num (if isActive then 600 else 400)) /\
    get "&:hover" style = Some (VObject hover) /\
    get "backgroundColor" style
    = Some (VString (if isActive then Colors.darkenedBgMix15 c else "transparent")) /\
    get "backgroundColor" hover
    = Some (VString (if isActive then Colors.darkenedBgMix25 c
                     else Colors.darkenedBgMix15 c)).
Proof.
  destruct s as [win t [[|]]]; cbv zeta; do 2 eexists; cbn;
    repeat split; reflexivity.
Qed.

(** X7. [StyledSidebarNavItems] adds its two fade overlays together: both
    pseudo-elements are [null] unless the list overflows, and when it does
    the one is pinned to the top and the other to the bottom, neither
    taking pointer events; [isExpanded] and [hasSidebarElements] play no
    part. *)
Theorem StyledSidebarNavItems_overlays (s : Store StyledSidebarNavItemsProps.t) :
  let style := style_of StyledSidebarNavItems s in
  (StyledSidebarNavItemsProps.isOverflowing (st_props s) = false ->
   get "&::before" style = Some VNull /\ get "&::after" style = Some VNull) /\
  (StyledSidebarNavItemsProps.isOverflowing (st_props s) = true ->
   exists before after,
     get "&::before" style = Some (VObject before) /\
     get "&::after" style = Some (VObject after) /\
     get "top" before = Some (num 0) /\ get "bottom" before = None /\
     get "bottom" after = Some (num 0) /\ get "top" after = None /\
     get "pointerEvents" before = Some (VString "none") /\
     get "pointerEvents" after = Some (VString "none")).
Proof.
  destruct s as [win t [isExpanded isOverflowing hasSidebarElements]]; cbv zeta.
  cbn [st_props StyledSidebarNavItemsProps.isOverflowing].
  split; intros ->.
  - destruct isExpanded, hasSidebarElements; split; reflexivity.
  - do 2 eexists.
    destruct isExpanded, hasSidebarElements; cbn; repeat split; reflexivity.
Qed.

(** X8. [StyledSidebarCollapsedControl] takes a [chevronDownshift] of 0,
    -0 or NaN as no downshift: [top] is then the theme's [spacing.sm]; any
    other number gives its text followed by ["px"]. [left] is
    [spacing.twoXS] for a collapsed sidebar and its negative otherwise. *)
Theorem StyledSidebarCollapsedControl_position
  (s : Store StyledSidebarCollapsedControlProps.t) :
  let n := StyledSidebarCollapsedControlProps.chevronDownshift (st_props s) in
  let sp := spacing (st_theme s) in
  let style := style_of StyledSidebarCollapsedControl s in
  ((n = S754_nan \/ exists sign, n = S754_zero sign) ->
   get "top" style = Some (VString (Spacing.sm sp))) /\
  (n <> S754_nan -> (forall sign, n <> S754_zero sign) ->
   get "top" style = Some (VString (Number_toString n ++ "px"))) /\
  get "left" style
  = Some (VString (if StyledSidebarCollapsedControlProps.isCollapsed (st_props s)
                   then Spacing.twoXS sp else "-" ++ Spacing.twoXS sp)).
Proof.
  destruct s as [win t [n isCollapsed]]; cbv zeta.
  cbn [st_props st_theme StyledSidebarCollapsedControlProps.chevronDownshift
       StyledSidebarCollapsedControlProps.isCollapsed].
  split; [ | split ].
  - intros [-> | [sign ->]]; destruct isCollapsed; reflexivity.
  - intros Hnan Hzero.
    destruct n as [sign | sign | | sign m e];
      [ exfalso; now apply (Hzero sign) | | exfalso; now apply Hnan | ];
      destruct isCollapsed; reflexivity.
  - destruct n, isCollapsed; reflexivity.
Qed.

(** X9. The close button and the collapsed control are never printed:
    whatever the props and the theme, the print rule of each is
    [display: none] and nothing more. *)
Theorem sidebar_controls_hidden_in_print
  (s1 : Store NoProps) (s2 : Store StyledSidebarCollapsedControlProps.t) :
  get "@media print" (style_of StyledSidebarCloseButton s1)
  = Some (VObject [("display", VString "none")]) /\
  get "@media print" (style_of StyledSidebarCollapsedControl s2)
  = Some (VObject [("display", VString "none")]).
Proof.
  destruct s1 as [w1 t1 p1], s2 as [w2 t2 [n isCollapsed]].
  split; [ reflexivity | ].
  destruct n, isCollapsed; reflexivity.
Qed.

(** X10. Five rules take nothing from the theme or the window
    ([StyledSidebarNavContainer], [StyledSidebarNavLinkContainer],
    [StyledSidebarContent], [StyledNoLogoSpacer],
    [StyledCollapseSidebarButton]): two evaluations with equal props give
    the same style under any two themes and windows. *)
Theorem props_only_rules_ignore_theme_and_window
  (r : rule_name) (s1 s2 : Store (props_of r)) :
  props_only r = true ->
  st_props s1 = st_props s2 ->
  style_of (style_rule r) s1 = style_of (style_rule r) s2.
Proof.
  destruct s1 as [w1 t1 p1], s2 as [w2 t2 p2]; simpl.
  intros Hr <-. destruct r; try discriminate Hr; reflexivity.
Qed.

(** ** Further facts: the app skeleton *)

Lemma phase_step t0 id0 w ev : phase t0 id0 w -> phase t0 id0 (step w ev).
Proof.
  intros [e t Ht | e t Ht | t | t]; destruct ev as [dt | e' |]; cbn [step].
  - destruct (N.lt_ge_cases (t + dt) (t0 + SHOW_DELAY_MS)) as [Hlt | Hge].
    + rewrite advance_waiting_early by assumption. now constructor.
    + rewrite advance_waiting_due by assumption. now constructor.
  - change (rerender e' (waiting_world t0 id0 e t [ASetTimeout id0 SHOW_DELAY_MS]))
      with (waiting_world t0 id0 e' t [ASetTimeout id0 SHOW_DELAY_MS]).
    now constructor.
  - rewrite unmount_waiting. constructor.
  - rewrite advance_shown. constructor. lia.
  - change (rerender e' (shown_world id0 e t [ASetVisible true; ASetTimeout id0 SHOW_DELAY_MS]))
      with (shown_world id0 e' t [ASetVisible true; ASetTimeout id0 SHOW_DELAY_MS]).
    now constructor.
  - rewrite unmount_shown. constructor.
  - rewrite advance_gone. constructor.
  - constructor.
  - constructor.
  - rewrite advance_gone. constructor.
  - constructor.
  - constructor.
Qed.

Lemma phase_run t0 id0 evs : forall w, phase t0 id0 w -> phase t0 id0 (run evs w).
Proof.
  induction evs as [| ev evs IH]; intros w Hw; simpl.
  - exact Hw.
  - apply IH. now apply phase_step.
Qed.

Lemma phase_mounted t0 id0 e evs : phase t0 id0 (run evs (mount e (idle t0 id0))).
Proof.
  apply phase_run. rewrite mount_idle. constructor. unfold SHOW_DELAY_MS. lia.
Qed.

Lemma unmount_entry_is_first (later earlier rest : list action) :
  ~ In AUnmounted rest ->
  (later ++ AUnmounted :: earlier)%list = AUnmounted :: rest ->
  later = [].
Proof.
  intros Hrest Heq. destruct later as [| a later]; [ reflexivity | ].
  exfalso. apply Hrest. injection Heq as _ <-. apply in_elt.
Qed.

(** X11. In no run of the component is the state setter called after the
    unmount, whether the timeout had fired before it or not: whatever the
    log holds above the unmount entry, it holds no [setVisible]. *)
Theorem no_setVisible_after_unmount
  (t0 id0 : N) (e : SkeletonProto) (evs : list event)
  (later earlier : list action) :
  calls (run evs (mount e (idle t0 id0))) = (later ++ AUnmounted :: earlier)%list ->
  forall v, ~ In (ASetVisible v) later.
Proof.
  intros Hlog v Hin.
  assert (Hu : In AUnmounted (calls (run evs (mount e (idle t0 id0)))))
    by (rewrite Hlog; apply in_elt).
  destruct (phase_mounted t0 id0 e evs) as [e' t Ht | e' t Ht | t | t];
    cbn [calls waiting_world shown_world gone_world] in Hlog, Hu.
  - destruct Hu as [Hu | []]; discriminate Hu.
  - destruct Hu as [Hu | [Hu | []]]; discriminate Hu.
  - symmetry in Hlog. apply unmount_entry_is_first in Hlog.
    + subst later. destruct Hin.
    + intros [H | [H | []]]; discriminate H.
  - symmetry in Hlog. apply unmount_entry_is_first in Hlog.
    + subst later. destruct Hin.
    + intros [H | [H | [H | []]]]; discriminate H.
Qed.

(** X12. The state setter is only ever called with [true]. While the
    component stays mounted it has been called exactly once from 500 ms on
    and not at all before; and in any run the flag is true only after
    exactly one call and false only after none. *)
Theorem setVisible_called_once_with_true
  (t0 id0 : N) (e : SkeletonProto) (evs : list event) :
  let w := run evs (mount e (idle t0 id0)) in
  (forall v, In (ASetVisible v) (calls w) -> v = true) /\
  (forallb keeps_mounted evs = true ->
   setVisible_calls w = if (elapsed evs <? SHOW_DELAY_MS)%N then 0%nat else 1%nat) /\
  (flag w = Some true -> setVisible_calls w = 1%nat) /\
  (flag w = Some false -> setVisible_calls w = 0%nat).
Proof.
  cbv zeta. split; [ | split; [ | split ] ].
  - intros v Hin.
    destruct (phase_mounted t0 id0 e evs) as [e' t Ht | e' t Ht | t | t];
      cbn [calls waiting_world shown_world gone_world] in Hin;
      repeat (destruct Hin as [Hin | Hin];
              [ try discriminate Hin; now injection Hin as <- | ]);
      destruct Hin.
  - intros Hm. rewrite run_mounted by assumption.
    destruct (elapsed evs <? SHOW_DELAY_MS)%N; reflexivity.
  - destruct (phase_mounted t0 id0 e evs) as [e' t Ht | e' t Ht | t | t];
      intros H; try discriminate H; reflexivity.
  - destruct (phase_mounted t0 id0 e evs) as [e' t Ht | e' t Ht | t | t];
      intros H; try discriminate H; reflexivity.
Qed.

(** X13. A mount starts one timeout and no run starts another: the oldest
    call is [setTimeout] with [SHOW_DELAY_MS], re-renders do not re-arm it,
    and [clearTimeout] is called only on the timer that call returned and
    only by the unmount. At most that one timeout is pending, due 500 ms
    after the mount, and none is left once the flag is true or the
    component is unmounted. *)
Theorem one_timeout_per_mount
  (t0 id0 : N) (e : SkeletonProto) (evs : list event) :
  let w := run evs (mount e (idle t0 id0)) in
  (exists newer,
     calls w = (newer ++ [ASetTimeout id0 SHOW_DELAY_MS])%list /\
     forall id delay, ~ In (ASetTimeout id delay) newer) /\
  (forall id, In (AClearTimeout id) (calls w) -> id = id0 /\ flag w = None) /\
  ((timers w = [{| timer_id := id0; deadline := (t0 + SHOW_DELAY_MS)%N;
                   handler := CallSetVisible true |}] /\
    flag w = Some false /\ (now w < t0 + SHOW_DELAY_MS)%N) \/
   (timers w = [] /\ flag w <> Some false)).
Proof.
  cbv zeta.
  destruct (phase_mounted t0 id0 e evs) as [e' t Ht | e' t Ht | t | t];
    (split; [ | split ]).
  - exists []. split; [ reflexivity | intros id delay [] ].
  - intros id [H | []]. discriminate H.
  - left. repeat split. exact Ht.
  - exists [ASetVisible true]. split; [ reflexivity | ].
    intros id delay [H | []]. discriminate H.
  - intros id [H | [H | []]]; discriminate H.
  - right. split; [ reflexivity | discriminate ].
  - exists [AUnmounted; AClearTimeout id0]. split; [ reflexivity | ].
    intros id delay [H | [H | []]]; discriminate H.
  - intros id [H | [H | [H | []]]]; try discriminate H.
    injection H as <-. split; reflexivity.
  - right. split; [ reflexivity | discriminate ].
  - exists [AUnmounted; AClearTimeout id0; ASetVisible true]. split; [ reflexivity | ].
    intros id delay [H | [H | [H | []]]]; discriminate H.
  - intros id [H | [H | [H | [H | []]]]]; try discriminate H.
    injection H as <-. split; reflexivity.
  - right. split; [ reflexivity | discriminate ].
Qed.
End Runtime.

(** ** The claims at concrete inputs *)

Lemma skeleton_absent_before_delay_present_after_witness :
  forallb keeps_mounted short_wait = true /\
  (elapsed short_wait < SHOW_DELAY_MS)%N /\
  output print_integer (run short_wait (mount skeleton_unset (idle 0 0)))
  = Some (Fragment []).
Proof.
  split; [ reflexivity | split; [ reflexivity | ] ].
  exact (proj1 (proj2 (skeleton_absent_before_delay_present_after
                         print_integer 0 0 skeleton_unset short_wait eq_refl))
           eq_refl).
Defined.

Lemma skeleton_square_height_witness :
  forallb keeps_mounted full_wait = true /\
  (SHOW_DELAY_MS <= elapsed full_wait)%N /\
  square_height print_integer (run full_wait (mount skeleton_unset (idle 0 0)))
  = Some "100pt".
Proof.
  split; [ reflexivity | split; [ discriminate | ] ].
  apply (skeleton_square_height print_integer 0 0 skeleton_unset full_wait).
  - reflexivity.
  - discriminate.
Defined.

Lemma unmount_before_delay_cancels_timer_witness :
  forallb keeps_mounted short_wait = true /\
  (elapsed short_wait < SHOW_DELAY_MS)%N /\
  forall v,
    ~ In (ASetVisible v)
        (calls (run [Advance 1000]
                  (step (run short_wait (mount skeleton_100 (idle 0 0))) Unmount))).
Proof.
  split; [ reflexivity | split; [ reflexivity | ] ].
  exact (proj2 (proj2 (proj2 (unmount_before_delay_cancels_timer
                                0 0 skeleton_100 short_wait [Advance 1000]
                                eq_refl eq_refl)))).
Defined.

Lemma style_rules_determined_by_props_theme_and_window_width_witness :
  st_props collapsed_narrow_page = st_props collapsed_wide_page /\
  st_theme collapsed_narrow_page = st_theme collapsed_wide_page /\
  reads_window N_StyledSidebar (st_props collapsed_narrow_page) = false /\
  style_of StyledSidebar collapsed_narrow_page
  = style_of StyledSidebar collapsed_wide_page.
Proof.
  split; [ reflexivity | split; [ reflexivity | split; [ reflexivity | ] ] ].
  apply (style_rules_determined_by_props_theme_and_window_width
           print_integer no_transparentize no_wrapped_headers
           N_StyledSidebar collapsed_narrow_page collapsed_wide_page).
  - reflexivity.
  - reflexivity.
  - simpl. intros H. discriminate H.
Defined.

Lemma StyledSidebarNavItems_maxHeight_witness :
  get "maxHeight" (style_of StyledSidebarNavItems (nav_items_page true false false))
  = Some (VString "100vh") /\
  get "maxHeight" (style_of StyledSidebarNavItems (nav_items_page true true true))
  = Some (VString "75vh") /\
  get "maxHeight" (style_of StyledSidebarNavItems (nav_items_page false true true))
  = Some (VString "33vh").
Proof.
  split; [ | split ].
  - exact (proj1 (StyledSidebarNavItems_maxHeight (nav_items_page true false false))
             eq_refl).
  - exact (proj1 (proj2 (StyledSidebarNavItems_maxHeight (nav_items_page true true true)))
             eq_refl eq_refl).
  - exact (proj2 (proj2 (StyledSidebarNavItems_maxHeight (nav_items_page false true true)))
             eq_refl eq_refl).
Defined.

Lemma StyledSidebar_widths_and_transform_witness :
  get "transform" (style_of StyledSidebar collapsed_wide_page)
  = Some (VString "translateX(-300px)") /\
  get "minWidth" (style_of StyledSidebar narrow_page) = Some (num 200) /\
  get "maxWidth" (style_of StyledSidebar narrow_page) = Some (num 180) /\
  get "maxWidth" (style_of StyledSidebar wide_page) = Some (num 550).
Proof.
  split; [ | split; [ | split ] ].
  - exact (proj2 (proj2 (proj1 (StyledSidebar_widths_and_transform collapsed_wide_page)
                           eq_refl))).
  - exact (proj1 (proj2 (proj2 (StyledSidebar_widths_and_transform narrow_page)
                           eq_refl))).
  - exact (proj2 (proj2 (proj2 (StyledSidebar_widths_and_transform narrow_page)
                           eq_refl))).
  - exact (proj2 (proj2 (proj2 (StyledSidebar_widths_and_transform wide_page)
                           eq_refl))).
Defined.

Lemma StyledSidebarNavSeparatorContainer_cursor_witness :
  get "cursor" (style_of StyledSidebarNavSeparatorContainer (separator_page false true))
  = Some (VString "pointer").
Proof.
  apply (proj1 (StyledSidebarNavSeparatorContainer_cursor (separator_page false true))).
  right. reflexivity.
Defined.

Lemma StyledLogo_height_witness :
  get "height" (style_of StyledLogo (logo_page "fixed")) = Some (VString "1.5rem") /\
  get "height" (style_of StyledLogo (logo_page EmptyString)) = Some (VString "auto").
Proof.
  split.
  - exact (proj1 (StyledLogo_height (logo_page "fixed")) eq_refl).
  - apply (proj1 (proj2 (StyledLogo_height (logo_page EmptyString)))).
    discriminate.
Defined.

(** C2 as the spec has it fails: the same props and the same theme, in a
    window 200 and in a window 1000 pixels wide, give [StyledSidebar] two
    different styles. *)
Lemma style_not_determined_by_props_and_theme :
  st_props narrow_page = st_props wide_page /\
  st_theme narrow_page = st_theme wide_page /\
  style_of (style_rule print_integer no_transparentize no_wrapped_headers N_StyledSidebar)
    narrow_page
  <> style_of (style_rule print_integer no_transparentize no_wrapped_headers N_StyledSidebar)
       wide_page.
Proof.
  split; [ reflexivity | split; [ reflexivity | ] ].
  intros H. apply (f_equal (get "minWidth")) in H.
  vm_compute in H. discriminate H.
Qed.

(** ** Runs of the model *)

Example lit_0_9_is_nine_tenths : SFdiv prec emax (of_Z 9) (of_Z 10) = lit_0_9.
Proof. reflexivity. Qed.

Example lit_0_5_is_a_half : SFdiv prec emax (of_Z 1) (of_Z 2) = lit_0_5.
Proof. reflexivity. Qed.

Example narrow_page_min_width :
  get "minWidth" (style_of StyledSidebar narrow_page) = Some (num 200).
Proof. reflexivity. Qed.

Example wide_page_min_width :
  get "minWidth" (style_of StyledSidebar wide_page) = Some (num 244).
Proof. reflexivity. Qed.

Example wide_page_print_rule :
  get "@media print" (style_of StyledSidebar wide_page)
  = Some (VObject [("backgroundColor", VString "transparent");
                   ("margin", VString "auto");
                   ("boxShadow", VString "none");
                   ("maxWidth", VString "none");
                   ("minWidth", VString "100%");
                   ("width", VString "100% !important");
                   ("paddingTop", VString "1rem")]).
Proof. reflexivity. Qed.

Example nav_link_starts_with_the_spread :
  map fst (style_of StyledSidebarNavLink
             (Build_Store (window_of_width 1000) light_theme
                {| StyledSidebarNavLinkProps.isActive := true |}))
  = ["textDecoration"; "fontWeight"; "display"; "flexDirection"; "alignItems";
     "gap"; "borderRadius"; "paddingLeft"; "paddingRight"; "marginLeft";
     "marginRight"; "marginTop"; "marginBottom"; "lineHeight"; "backgroundColor";
     "&:hover"; "&:active,&:visited,&:hover"; "&:focus"; "&:focus-visible";
     "@media print"].
Proof. reflexivity. Qed.

Example collapsed_control_top :
  get "top" (style_of (StyledSidebarCollapsedControl print_integer)
               (Build_Store (window_of_width 1000) light_theme
                  {| StyledSidebarCollapsedControlProps.chevronDownshift := of_Z 46;
                     StyledSidebarCollapsedControlProps.isCollapsed := true |}))
  = Some (VString "46px").
Proof. reflexivity. Qed.

Example hidden_at_499_ms :
  output print_integer (run [Advance 499] (mount skeleton_100 (idle 0 0)))
  = Some (Fragment []).
Proof. reflexivity. Qed.

Example shown_at_500_ms :
  output print_integer (run [Advance 500] (mount skeleton_100 (idle 0 0)))
  = Some (RawAppSkeleton print_integer skeleton_100 true).
Proof. reflexivity. Qed.

Example unset_height_prints_null :
  square_height print_integer (run [Advance 500] (mount skeleton_unset (idle 0 0)))
  = Some "nullpt".
Proof. reflexivity. Qed.

Example unmount_then_wait :
  calls (run [Advance 100; Unmount; Advance 1000] (mount skeleton_100 (idle 0 0)))
  = [AUnmounted; AClearTimeout 0; ASetTimeout 0 500].
Proof. reflexivity. Qed.

(** Without the cleanup the handler would still run after the unmount. *)
Example timer_left_behind_fires :
  calls (advance 400 timer_left_behind)
  = [ASetVisible true; AUnmounted; ASetTimeout 0 500].
Proof. reflexivity. Qed.

(** ** The further facts at concrete inputs *)

Lemma StyledSidebar_width_clamps_witness :
  get "minWidth" (style_of StyledSidebar wide_page) = Some (num 244) /\
  get "maxWidth" (style_of StyledSidebar wide_page) = Some (num 550).
Proof.
  destruct (StyledSidebar_width_clamps 1000 light_theme expanded_sidebar eq_refl)
    as (Hmin & Hmax & _).
  - lia.
  - split; [ exact Hmin | apply Hmax; lia ].
Defined.

Lemma StyledSidebar_narrow_window_inverts_widths_witness :
  exists minWidth maxWidth,
    get "minWidth" (style_of StyledSidebar narrow_page) = Some (VNumber minWidth) /\
    get "maxWidth" (style_of StyledSidebar narrow_page) = Some (VNumber maxWidth) /\
    SFltb maxWidth minWidth = true.
Proof.
  destruct (StyledSidebar_narrow_window_inverts_widths
              200 light_theme expanded_sidebar eq_refl)
    as (mn & mx & Hmin & Hmax & Hlt & _).
  - lia.
  - exists mn, mx. split; [ exact Hmin | split; [ exact Hmax | apply Hlt; lia ] ].
Defined.

Lemma StyledSidebar_window_reaches_widths_only_witness :
  get "transform" (style_of StyledSidebar narrow_page)
  = get "transform" (style_of StyledSidebar wide_page).
Proof.
  apply (StyledSidebar_window_reaches_widths_only narrow_page wide_page "transform").
  - reflexivity.
  - reflexivity.
  - discriminate.
  - discriminate.
Defined.

Lemma StyledSidebarUserContent_helper_has_last_word_witness :
  NoDup (map fst (headers_with_padding light_theme)) /\
  get "paddingTop"
    (style_of (StyledSidebarUserContent headers_with_padding) user_content_page)
  = Some (VString "0.5rem") /\
  get "paddingLeft"
    (style_of (StyledSidebarUserContent headers_with_padding) user_content_page)
  = Some (VString "1.5rem").
Proof.
  assert (Hnd : NoDup (map fst (headers_with_padding light_theme))).
  { constructor.
    - intros [H | []]. discriminate H.
    - constructor; [ intros [] | constructor ]. }
  split; [ exact Hnd | split ].
  - exact (StyledSidebarUserContent_helper_has_last_word
             headers_with_padding user_content_page "paddingTop" Hnd).
  - exact (StyledSidebarUserContent_helper_has_last_word
             headers_with_padding user_content_page "paddingLeft" Hnd).
Defined.

Lemma StyledSidebarNavItems_overlays_witness :
  get "&::before" (style_of StyledSidebarNavItems (nav_items_page true false true))
  = Some VNull /\
  exists after,
    get "&::after" (style_of StyledSidebarNavItems (nav_items_page false true false))
    = Some (VObject after) /\
    get "bottom" after = Some (num 0).
Proof.
  split.
  - exact (proj1 (proj1 (StyledSidebarNavItems_overlays (nav_items_page true false true))
                    eq_refl)).
  - destruct (proj2 (StyledSidebarNavItems_overlays (nav_items_page false true false))
                eq_refl)
      as (before & after & _ & Hafter & _ & _ & Hbottom & _).
    exists after. split; [ exact Hafter | exact Hbottom ].
Defined.

Lemma StyledSidebarCollapsedControl_position_witness :
  get "top" (style_of (StyledSidebarCollapsedControl print_integer) (control_page 0))
  = Some (VString "0.5rem") /\
  get "top" (style_of (StyledSidebarCollapsedControl print_integer) (control_page 46))
  = Some (VString "46px").
Proof.
  split.
  - apply (proj1 (StyledSidebarCollapsedControl_position print_integer (control_page 0))).
    right. exists false. reflexivity.
  - apply (proj1 (proj2 (StyledSidebarCollapsedControl_position
                           print_integer (control_page 46)))).
    + discriminate.
    + intros sign. discriminate.
Defined.

Lemma props_only_rules_ignore_theme_and_window_witness :
  style_of StyledSidebarContent (content_page 200)
  = style_of StyledSidebarContent (content_page 1000).
Proof.
  apply (props_only_rules_ignore_theme_and_window
           print_integer no_transparentize no_wrapped_headers
           N_StyledSidebarContent (content_page 200) (content_page 1000)).
  - reflexivity.
  - reflexivity.
Defined.

Lemma no_setVisible_after_unmount_witness :
  calls (run late_unmount (mount skeleton_100 (idle 0 0)))
  = ([] ++ AUnmounted :: [AClearTimeout 0; ASetVisible true; ASetTimeout 0 500])%list /\
  forall v, ~ In (ASetVisible v) [].
Proof.
  split; [ reflexivity | ].
  exact (no_setVisible_after_unmount 0 0 skeleton_100 late_unmount []
           [AClearTimeout 0; ASetVisible true; ASetTimeout 0 500] eq_refl).
Defined.

Lemma setVisible_called_once_with_true_witness :
  forallb keeps_mounted full_wait = true /\
  setVisible_calls (run full_wait (mount skeleton_100 (idle 0 0))) = 1%nat.
Proof.
  split; [ reflexivity | ].
  exact (proj1 (proj2 (setVisible_called_once_with_true 0 0 skeleton_100 full_wait))
           eq_refl).
Defined.
